(** * The interaction state machine of the mod search page

    A shallow embedding of [src/app/page.tsx]: the React component
    [MinecraftModsSearch] (suggestions, search sessions with pagination,
    summaries), together with the browser facilities it relies on (timers,
    the network, the console).  Every handler of the component is a function
    on a [World]; an [async] handler is split at its [await] into the part
    that runs at the call and the part that runs when the reply arrives.
    Every event finds the page rendered from the current state: a handler
    reads the state cells as they are when it is called, and what a
    callback closes over is stored with the timer or the pending request. *)

From Stdlib Require Import String Ascii NArith ZArith Bool Arith Lia.
From Stdlib Require Import List.
Import ListNotations.
Open Scope string_scope.
Open Scope list_scope.
Open Scope nat_scope.

Set Implicit Arguments.

(** ** JavaScript strings *)

(** A JavaScript string is a sequence of UTF-16 code units. *)
Definition jsstring := list N.

(** Literals of the source, which are all ASCII. *)
Definition lit (s : string) : jsstring :=
  map N_of_ascii (list_ascii_of_string s).

(** The code units [String.prototype.trim] strips: WhiteSpace and
    LineTerminator of ECMA-262. *)
Definition isWhiteSpace (c : N) : bool :=
  ((9 <=? c) && (c <=? 13) || (c =? 32) || (c =? 160) || (c =? 5760)
   || (8192 <=? c) && (c <=? 8202) || (c =? 8232) || (c =? 8233)
   || (c =? 8239) || (c =? 8287) || (c =? 12288) || (c =? 65279))%N.

Fixpoint trimStart (s : jsstring) : jsstring :=
  match s with
  | [] => []
  | c :: r => if isWhiteSpace c then trimStart r else s
  end.

Definition trimEnd (s : jsstring) : jsstring := rev (trimStart (rev s)).

Definition trim (s : jsstring) : jsstring := trimEnd (trimStart s).

(** Truthiness of a string: every string but the empty one. *)
Definition truthy (s : jsstring) : bool :=
  match s with [] => false | _ :: _ => true end.

(** What the guards [!searchTerm.trim()] test. *)
Definition blank (s : jsstring) : bool := negb (truthy (trim s)).

(** The two halves of a surrogate pair. *)
Definition isLeadingSurrogate (c : N) : bool :=
  ((55296 <=? c) && (c <=? 56319))%N.

Definition isTrailingSurrogate (c : N) : bool :=
  ((56320 <=? c) && (c <=? 57343))%N.

(** [encodeURIComponent(s)] returns for these texts and throws a [URIError]
    for the others: those with a surrogate that is not part of a pair
    (Encode of ECMA-262).  Where it returns, a request stands for the
    escaped text by the text itself. *)
Fixpoint uriEncodable (s : jsstring) : bool :=
  match s with
  | [] => true
  | c :: r =>
      if isLeadingSurrogate c then
        match r with
        | d :: r' => isTrailingSurrogate d && uriEncodable r'
        | [] => false
        end
      else if isTrailingSurrogate c then false
      else uriEncodable r
  end.

(** ** The interfaces of the page *)

Module ModResult.
Record t := mk {
  id : Z;
  title : jsstring;
  authors : list jsstring;
  categories : list jsstring;
  description : jsstring;
  popularityRank : Z;
  websiteUrl : jsstring
}.
End ModResult.

Module SearchResponse.
Record t := mk { query : jsstring; results : list ModResult.t }.
End SearchResponse.

(** The interface declares [suggestions: string[]], but the types are
    erased when the page runs: [data.suggestions] is whatever the body
    holds under that name, and [undefined] ([None]) where it holds
    nothing. *)
Module AutocompleteResponse.
Record t := mk { query : jsstring; suggestions : option (list jsstring) }.
End AutocompleteResponse.

Module SummaryResponse.
Record t := mk { mod_id : jsstring; title : jsstring; summary : jsstring }.
End SummaryResponse.

(** ** Component state: the [useState] cells and the [useRef] timer *)

(** The cell [suggestions] holds what [setSuggestions] was given: a list,
    or [undefined] ([None]). *)
Record State := mkState {
  query : jsstring;
  searchResults : list ModResult.t;
  suggestions : option (list jsstring);
  showSuggestions : bool;
  isSearching : bool;
  currentPage : nat;
  hasMoreResults : bool;
  selectedSummary : option SummaryResponse.t;
  isLoadingSummary : bool;
  useAdvancedAutocomplete : bool;
  searchQuery : jsstring;
  debounceTimer : option nat
}.

(** [const [pageSize] = useState(10)]: no setter is ever taken. *)
Definition pageSize : nat := 10.

(** ** The environment: timers, network, console *)

Inductive Endpoint := sayt | suggester.

(** The three URLs the page requests, by their variable parts. *)
Inductive Request :=
| GetAutocomplete (endpoint : Endpoint) (q : jsstring) (size : nat)
| GetSearch (q : jsstring) (size : nat) (offset : nat)
| GetSummary (modId : Z).

(** What can be observed of a run, in order.  [Call_fetchSuggestions]
    records an invocation of [fetchSuggestions]; it has no effect on the
    behaviour. *)
Inductive Effect :=
| Call_fetchSuggestions (searchTerm : jsstring)
| Http (r : Request)
| ConsoleError (msg : string).

(** The callbacks handed to [setTimeout].  The debounce callback closes over
    the [value] typed and over the [fetchSuggestions] of the render that
    scheduled it, hence over that render's [useAdvancedAutocomplete]. *)
Inductive TimerCallback :=
| DebouncedFetch (advanced : bool) (value : jsstring)
| HideSuggestions.

Record Timer := mkTimer {
  timerId : nat;
  deadline : nat;
  callback : TimerCallback
}.

(** The suspended rest of an [async] handler, with the variables it closes
    over. *)
Inductive Awaiting :=
| AwaitSuggestions
| AwaitSearch (page : nat)
| AwaitSummary.

(** How [await fetch(..)] followed by [await response.json()] ends: [fetch]
    rejects, or a response with some status arrives whose body either fails
    to parse ([None]) or parses to a value with the fields of the
    interface.  No handler touches the state between the two awaits, so
    they are one step. *)
Inductive Outcome (A : Type) :=
| Rejected
| Replied (status : Z) (body : option A).
Arguments Rejected {A}.

(** [SuggestionsNull] is the reply to an autocomplete request whose body
    parses, but to the JSON value [null]: reading [data.suggestions] of it
    throws a [TypeError]. *)
Inductive Reply :=
| SuggestionsReply (o : Outcome AutocompleteResponse.t)
| SearchReply (o : Outcome SearchResponse.t)
| SummaryReply (o : Outcome SummaryResponse.t)
| SuggestionsNull (status : Z).

Record World := mkWorld {
  ui : State;
  clock : nat;
  timers : list Timer;
  nextTimer : nat;
  inflight : list (nat * Awaiting);
  nextRequest : nat;
  trace : list Effect
}.

Definition Action := World -> World.

Definition andThen (a b : Action) : Action := fun w => b (a w).
Notation "a ;; b" := (andThen a b) (at level 61, right associativity).

Definition skip : Action := fun w => w.

(** ** State setters *)

Definition onUi (f : State -> State) : Action := fun w =>
  mkWorld (f (ui w)) (clock w) (timers w) (nextTimer w) (inflight w)
          (nextRequest w) (trace w).

Definition setQuery (v : jsstring) : Action :=
  onUi (fun s => mkState v (searchResults s) (suggestions s)
    (showSuggestions s) (isSearching s) (currentPage s) (hasMoreResults s)
    (selectedSummary s) (isLoadingSummary s) (useAdvancedAutocomplete s)
    (searchQuery s) (debounceTimer s)).

(** [setSearchResults] in its functional form [setSearchResults(prev => ..)];
    the plain form is the constant function. *)
Definition updSearchResults (f : list ModResult.t -> list ModResult.t)
  : Action :=
  onUi (fun s => mkState (query s) (f (searchResults s)) (suggestions s)
    (showSuggestions s) (isSearching s) (currentPage s) (hasMoreResults s)
    (selectedSummary s) (isLoadingSummary s) (useAdvancedAutocomplete s)
    (searchQuery s) (debounceTimer s)).

Definition setSearchResults (v : list ModResult.t) : Action :=
  updSearchResults (fun _ => v).

Definition setSuggestions (v : option (list jsstring)) : Action :=
  onUi (fun s => mkState (query s) (searchResults s) v
    (showSuggestions s) (isSearching s) (currentPage s) (hasMoreResults s)
    (selectedSummary s) (isLoadingSummary s) (useAdvancedAutocomplete s)
    (searchQuery s) (debounceTimer s)).

Definition setShowSuggestions (v : bool) : Action :=
  onUi (fun s => mkState (query s) (searchResults s) (suggestions s)
    v (isSearching s) (currentPage s) (hasMoreResults s)
    (selectedSummary s) (isLoadingSummary s) (useAdvancedAutocomplete s)
    (searchQuery s) (debounceTimer s)).

Definition setIsSearching (v : bool) : Action :=
  onUi (fun s => mkState (query s) (searchResults s) (suggestions s)
    (showSuggestions s) v (currentPage s) (hasMoreResults s)
    (selectedSummary s) (isLoadingSummary s) (useAdvancedAutocomplete s)
    (searchQuery s) (debounceTimer s)).

Definition setCurrentPage (v : nat) : Action :=
  onUi (fun s => mkState (query s) (searchResults s) (suggestions s)
    (showSuggestions s) (isSearching s) v (hasMoreResults s)
    (selectedSummary s) (isLoadingSummary s) (useAdvancedAutocomplete s)
    (searchQuery s) (debounceTimer s)).

Definition setHasMoreResults (v : bool) : Action :=
  onUi (fun s => mkState (query s) (searchResults s) (suggestions s)
    (showSuggestions s) (isSearching s) (currentPage s) v
    (selectedSummary s) (isLoadingSummary s) (useAdvancedAutocomplete s)
    (searchQuery s) (debounceTimer s)).

Definition setSelectedSummary (v : option SummaryResponse.t) : Action :=
  onUi (fun s => mkState (query s) (searchResults s) (suggestions s)
    (showSuggestions s) (isSearching s) (currentPage s) (hasMoreResults s)
    v (isLoadingSummary s) (useAdvancedAutocomplete s)
    (searchQuery s) (debounceTimer s)).

Definition setIsLoadingSummary (v : bool) : Action :=
  onUi (fun s => mkState (query s) (searchResults s) (suggestions s)
    (showSuggestions s) (isSearching s) (currentPage s) (hasMoreResults s)
    (selectedSummary s) v (useAdvancedAutocomplete s)
    (searchQuery s) (debounceTimer s)).

Definition setUseAdvancedAutocomplete (v : bool) : Action :=
  onUi (fun s => mkState (query s) (searchResults s) (suggestions s)
    (showSuggestions s) (isSearching s) (currentPage s) (hasMoreResults s)
    (selectedSummary s) (isLoadingSummary s) v
    (searchQuery s) (debounceTimer s)).

Definition setSearchQuery (v : jsstring) : Action :=
  onUi (fun s => mkState (query s) (searchResults s) (suggestions s)
    (showSuggestions s) (isSearching s) (currentPage s) (hasMoreResults s)
    (selectedSummary s) (isLoadingSummary s) (useAdvancedAutocomplete s)
    v (debounceTimer s)).

(** [debounceTimer.current = v] *)
Definition setDebounceTimer (v : option nat) : Action :=
  onUi (fun s => mkState (query s) (searchResults s) (suggestions s)
    (showSuggestions s) (isSearching s) (currentPage s) (hasMoreResults s)
    (selectedSummary s) (isLoadingSummary s) (useAdvancedAutocomplete s)
    (searchQuery s) v).

(** ** Browser facilities *)

Definition emit (e : Effect) : Action := fun w =>
  mkWorld (ui w) (clock w) (timers w) (nextTimer w) (inflight w)
          (nextRequest w) (trace w ++ [e]).

Definition consoleError (msg : string) : Action := emit (ConsoleError msg).

(** [fetch(url)] up to its [await]: the request leaves, and the rest of the
    handler is parked under a fresh request number. *)
Definition fetch (r : Request) (k : Awaiting) : Action := fun w =>
  mkWorld (ui w) (clock w) (timers w) (nextTimer w)
          (inflight w ++ [(nextRequest w, k)]) (S (nextRequest w))
          (trace w ++ [Http r]).

(** [setTimeout(cb, delay)] returns the new timer's identifier. *)
Definition setTimeout (cb : TimerCallback) (delay : nat) (w : World)
  : nat * World :=
  (nextTimer w,
   mkWorld (ui w) (clock w)
           (timers w ++ [mkTimer (nextTimer w) (clock w + delay) cb])
           (S (nextTimer w)) (inflight w) (nextRequest w) (trace w)).

(** [clearTimeout(t)]: a timer that has fired or was cleared is no longer
    in the list, and clearing it does nothing. *)
Definition clearTimeout (t : nat) : Action := fun w =>
  mkWorld (ui w) (clock w)
          (filter (fun x => negb (timerId x =? t)) (timers w))
          (nextTimer w) (inflight w) (nextRequest w) (trace w).

(** ** The handlers of [MinecraftModsSearch] *)

(** The [catch] block of [fetchSuggestions]. *)
Definition fetchSuggestions_catch : Action :=
  consoleError "Error fetching suggestions:" ;;
  setSuggestions (Some []) ;;
  setShowSuggestions false.

(** [fetchSuggestions], up to its [await]; where the URL cannot be built,
    which happens inside the [try], to its end.  [advanced] is the
    [useAdvancedAutocomplete] of the render whose [useCallback] produced
    this instance. *)
Definition fetchSuggestions (advanced : bool) (searchTerm : jsstring)
  : Action :=
  emit (Call_fetchSuggestions searchTerm) ;;
  if blank searchTerm then
    setSuggestions (Some []) ;; setShowSuggestions false
  else if uriEncodable searchTerm then
    fetch (GetAutocomplete (if advanced then sayt else suggester)
                           searchTerm 5)
          AwaitSuggestions
  else
    (* the URL is built inside the [try]: no request, the [catch] runs *)
    fetchSuggestions_catch.

(** [fetchSuggestions] from its [await] on. *)
Definition fetchSuggestions_resume (o : Outcome AutocompleteResponse.t)
  : Action :=
  match o with
  | Replied _ (Some data) =>
      setSuggestions (AutocompleteResponse.suggestions data) ;;
      setShowSuggestions true
  | _ => fetchSuggestions_catch
  end.

Definition debounceDelay : nat := 1000.

Definition handleInputChange (value : jsstring) : Action :=
  setQuery value ;;
  (fun w => match debounceTimer (ui w) with
            | Some t => clearTimeout t w
            | None => w
            end) ;;
  (fun w =>
     let (t, w') :=
       setTimeout (DebouncedFetch (useAdvancedAutocomplete (ui w)) value)
                  debounceDelay w in
     setDebounceTimer (Some t) w').

(** The [catch] and [finally] blocks of [performSearch]. *)
Definition performSearch_catch : Action :=
  consoleError "Error searching:" ;;
  setSearchResults [] ;;
  setHasMoreResults false ;;
  setIsSearching false.

(** [performSearch], up to its [await]; where the URL cannot be built,
    which happens inside the [try], to its end. *)
Definition performSearch (searchTerm : jsstring) (page : nat) : Action :=
  if blank searchTerm then skip
  else
    setIsSearching true ;;
    setShowSuggestions false ;;
    setSearchQuery searchTerm ;;
    if uriEncodable searchTerm then
      fetch (GetSearch searchTerm pageSize page) (AwaitSearch page)
    else performSearch_catch.

(** [performSearch] from its [await] on: [try] body, [catch], [finally]. *)
Definition performSearch_resume (page : nat) (o : Outcome SearchResponse.t)
  : Action :=
  match o with
  | Replied _ (Some data) =>
      (if page =? 0 then setSearchResults (SearchResponse.results data)
       else updSearchResults
              (fun prev => prev ++ SearchResponse.results data)) ;;
      setHasMoreResults
        (length (SearchResponse.results data) =? pageSize) ;;
      setCurrentPage page
  | _ =>
      consoleError "Error searching:" ;;
      setSearchResults [] ;;
      setHasMoreResults false
  end ;;
  setIsSearching false.

(** [handleSearch(searchTerm?)]: [searchTerm || query]. *)
Definition handleSearch (searchTerm : option jsstring) : Action := fun w =>
  let term :=
    match searchTerm with
    | Some s => if truthy s then s else query (ui w)
    | None => query (ui w)
    end in
  if truthy (trim term) then performSearch term 0 w else w.

Definition handleSuggestionClick (suggestion : jsstring) : Action :=
  setQuery suggestion ;;
  setShowSuggestions false ;;
  performSearch suggestion 0.

Definition loadMoreResults : Action := fun w =>
  if truthy (searchQuery (ui w)) && negb (isSearching (ui w)) then
    performSearch (searchQuery (ui w)) (currentPage (ui w) + 1) w
  else w.

(** [fetchSummary], up to its [await]. *)
Definition fetchSummary (modId : Z) : Action :=
  setIsLoadingSummary true ;;
  fetch (GetSummary modId) AwaitSummary.

(** [fetchSummary] from its [await] on. *)
Definition fetchSummary_resume (o : Outcome SummaryResponse.t) : Action :=
  match o with
  | Replied _ (Some data) => setSelectedSummary (Some data)
  | _ => consoleError "Error fetching summary:"
  end ;;
  setIsLoadingSummary false.

Inductive Key := Enter | Escape | OtherKey.

Definition handleKeyPress (key : Key) : Action :=
  match key with
  | Enter => handleSearch None
  | Escape => setShowSuggestions false
  | OtherKey => skip
  end.

(** The inline handlers of the input: [onFocus] and [onBlur]. *)
Definition onFocus : Action := fun w =>
  if truthy (trim (query (ui w))) then
    fetchSuggestions (useAdvancedAutocomplete (ui w)) (query (ui w)) w
  else w.

Definition blurDelay : nat := 150.

Definition onBlur : Action := fun w =>
  snd (setTimeout HideSuggestions blurDelay w).

(** ** What is rendered: which controls exist and respond *)

Definition searchButtonEnabled (s : State) : bool := negb (isSearching s).

(** [showSuggestions && suggestions && suggestions.length > 0] *)
Definition suggestionsRendered (s : State) : bool :=
  showSuggestions s
  && match suggestions s with
     | Some l => 0 <? length l
     | None => false
     end.

(** The entries of the list rendered, which [suggestions.map] goes
    through. *)
Definition suggestionItems (s : State) : list jsstring :=
  match suggestions s with
  | Some l => l
  | None => []
  end.

Definition resultsRendered (s : State) : bool :=
  0 <? length (searchResults s).

Definition loadMoreRendered (s : State) : bool :=
  resultsRendered s && hasMoreResults s.

Definition loadMoreEnabled (s : State) : bool :=
  loadMoreRendered s && negb (isSearching s).

Definition summarizeEnabled (modId : Z) (s : State) : bool :=
  existsb (fun m => Z.eqb (ModResult.id m) modId) (searchResults s)
  && negb (isLoadingSummary s).

Definition summaryRendered (s : State) : bool :=
  match selectedSummary s with Some _ => true | None => false end.

(** ** Timers coming due *)

Definition fire (cb : TimerCallback) : Action :=
  match cb with
  | DebouncedFetch advanced value => fetchSuggestions advanced value
  | HideSuggestions => setShowSuggestions false
  end.

(** Timers fire by deadline, and in order of creation at equal deadlines. *)
Definition firesBefore (a b : Timer) : bool :=
  (deadline a <? deadline b)
  || (deadline a =? deadline b) && (timerId a <=? timerId b).

Fixpoint insertTimer (t : Timer) (l : list Timer) : list Timer :=
  match l with
  | [] => [t]
  | x :: r => if firesBefore t x then t :: l else x :: insertTimer t r
  end.

Definition firingOrder (l : list Timer) : list Timer :=
  fold_right insertTimer [] l.

Definition isDue (now : nat) (t : Timer) : bool := deadline t <=? now.

(** [ms] milliseconds pass: the timers due by then run, the others stay.
    No callback of the page sets a timer, so one pass is enough. *)
Definition elapse (ms : nat) : Action := fun w =>
  let now := clock w + ms in
  let due := filter (isDue now) (timers w) in
  let rest := filter (fun t => negb (isDue now t)) (timers w) in
  fold_left (fun w' t => fire (callback t) w')
            (firingOrder due)
            (mkWorld (ui w) now rest (nextTimer w) (inflight w)
                     (nextRequest w) (trace w)).

(** ** Replies arriving *)

Fixpoint awaiting (id : nat) (l : list (nat * Awaiting)) : option Awaiting :=
  match l with
  | [] => None
  | (i, k) :: r => if i =? id then Some k else awaiting id r
  end.

Definition settle (id : nat) : Action := fun w =>
  mkWorld (ui w) (clock w) (timers w) (nextTimer w)
          (filter (fun p => negb (fst p =? id)) (inflight w))
          (nextRequest w) (trace w).

(** The reply to request [id] resumes the handler parked under it.  A reply
    to no pending request, or of another endpoint's shape, is not
    delivered. *)
Definition respond (id : nat) (r : Reply) : Action := fun w =>
  match awaiting id (inflight w), r with
  | Some AwaitSuggestions, SuggestionsReply o =>
      (settle id ;; fetchSuggestions_resume o) w
  | Some (AwaitSearch page), SearchReply o =>
      (settle id ;; performSearch_resume page o) w
  | Some AwaitSummary, SummaryReply o =>
      (settle id ;; fetchSummary_resume o) w
  | Some AwaitSuggestions, SuggestionsNull _ =>
      (* [data.suggestions] throws inside the [try] *)
      (settle id ;; fetchSuggestions_catch) w
  | _, _ => w
  end.

(** ** Events and runs *)

Inductive Event :=
| InputChange (value : jsstring)
| KeyDown (key : Key)
| ClickSearch
| Focus
| Blur
| ClickSuggestion (index : nat)
| ClickLoadMore
| ClickSummarize (modId : Z)
| CloseSummary
| ToggleAutocomplete (checked : bool)
| Elapse (ms : nat)
| Respond (id : nat) (r : Reply).

Definition dispatch (e : Event) : Action := fun w =>
  match e with
  | InputChange value => handleInputChange value w
  | KeyDown key => handleKeyPress key w
  | ClickSearch =>
      if searchButtonEnabled (ui w) then handleSearch None w else w
  | Focus => onFocus w
  | Blur => onBlur w
  | ClickSuggestion index =>
      if suggestionsRendered (ui w) then
        match nth_error (suggestionItems (ui w)) index with
        | Some suggestion => handleSuggestionClick suggestion w
        | None => w
        end
      else w
  | ClickLoadMore =>
      if loadMoreEnabled (ui w) then loadMoreResults w else w
  | ClickSummarize modId =>
      if summarizeEnabled modId (ui w) then fetchSummary modId w else w
  | CloseSummary =>
      if summaryRendered (ui w) then setSelectedSummary None w else w
  | ToggleAutocomplete checked => setUseAdvancedAutocomplete checked w
  | Elapse ms => elapse ms w
  | Respond id r => respond id r w
  end.

Definition run (es : list Event) : Action := fun w =>
  fold_left (fun w' e => dispatch e w') es w.

(** The page as first rendered. *)
Definition initialState : State :=
  mkState [] [] (Some []) false false 0 false None false false [] None.

Definition initialWorld : World := mkWorld initialState 0 [] 0 [] 0 [].

(** ** Vocabulary of the statements *)

Definition isDebounce (t : Timer) : bool :=
  match callback t with
  | DebouncedFetch _ _ => true
  | HideSuggestions => false
  end.

(** The debounce timers that are set and have not fired. *)
Definition pendingDebounce (w : World) : list Timer :=
  filter isDebounce (timers w).

(** At most one debounce timer is pending, and it is the one
    [debounceTimer.current] holds. *)
Definition wellFormed (w : World) : bool :=
  (length (pendingDebounce w) <=? 1)
  && forallb (fun t => match debounceTimer (ui w) with
                       | Some i => timerId t =? i
                       | None => false
                       end)
             (pendingDebounce w).

Definition endpointOf (advanced : bool) : Endpoint :=
  if advanced then sayt else suggester.

(** What a call [fetchSuggestions(searchTerm)] adds to the trace. *)
Definition suggestionEffects (advanced : bool) (searchTerm : jsstring)
  : list Effect :=
  Call_fetchSuggestions searchTerm
  :: (if blank searchTerm then []
      else if uriEncodable searchTerm then
        [Http (GetAutocomplete (endpointOf advanced) searchTerm 5)]
      else [ConsoleError "Error fetching suggestions:"]).

Definition effectsOf (t : Timer) : list Effect :=
  match callback t with
  | DebouncedFetch advanced value => suggestionEffects advanced value
  | HideSuggestions => []
  end.

(** A burst of keystrokes: the first one, then each further one [fst]
    milliseconds after the one before it. *)
Definition typing (first : jsstring) (more : list (nat * jsstring))
  : list Event :=
  InputChange first
  :: flat_map (fun p => [Elapse (fst p); InputChange (snd p)]) more.

Definition lastTyped (first : jsstring) (more : list (nat * jsstring))
  : jsstring :=
  last (map snd more) first.

(** Whether the [try] block of a handler threw: at [fetch] or at
    [response.json()]. *)
Definition threw {A : Type} (o : Outcome A) : bool :=
  match o with
  | Replied _ (Some _) => false
  | _ => true
  end.

(** ** The summary flow of the second component, [MinecraftModSearch]

    The file holds a second page component.  Its summary flow,
    [handleModClick], is embedded here on the three cells it writes. *)

Module ModSearch.

Record Mod := mkMod {
  id : jsstring;
  title : jsstring;
  authors : list jsstring;
  categories : list jsstring;
  description : jsstring;
  popularityRank : Z;
  websiteUrl : jsstring
}.

Record SummaryCells := mkCells {
  selectedMod : option Mod;
  modSummary : jsstring;
  summaryLoading : bool
}.

(** [response.ok] *)
Definition ok (status : Z) : bool :=
  ((200 <=? status) && (status <=? 299))%Z.

(** [handleModClick], up to its [await]: the cells, and the identifier
    requested. *)
Definition handleModClick (m : Mod) (s : SummaryCells)
  : SummaryCells * jsstring :=
  (mkCells (Some m) [] true, id m).

(** [handleModClick] from its [await] on. *)
Definition handleModClick_resume (o : Outcome SummaryResponse.t)
    (s : SummaryCells) : SummaryCells :=
  let text :=
    match o with
    | Rejected => lit "Failed to load summary."
    | Replied status body =>
        if ok status then
          match body with
          | Some data => SummaryResponse.summary data
          | None => lit "Failed to load summary."
          end
        else lit "Summary not available for this mod."
    end in
  mkCells (selectedMod s) text false.

End ModSearch.

(** What the timer callbacks leave as it is: everything but the suggestion
    list, its visibility, the pending requests and the trace. *)
Definition sameControl (w w' : World) : Prop :=
  clock w' = clock w
  /\ timers w' = timers w
  /\ nextTimer w' = nextTimer w
  /\ query (ui w') = query (ui w)
  /\ searchResults (ui w') = searchResults (ui w)
  /\ isSearching (ui w') = isSearching (ui w)
  /\ currentPage (ui w') = currentPage (ui w)
  /\ hasMoreResults (ui w') = hasMoreResults (ui w)
  /\ selectedSummary (ui w') = selectedSummary (ui w)
  /\ isLoadingSummary (ui w') = isLoadingSummary (ui w)
  /\ useAdvancedAutocomplete (ui w') = useAdvancedAutocomplete (ui w)
  /\ searchQuery (ui w') = searchQuery (ui w)
  /\ debounceTimer (ui w') = debounceTimer (ui w).

(** The state right after a keystroke: one debounce timer is pending, for
    the text [value], a full delay from now, and the ref holds it. *)
Definition armed (advanced : bool) (value : jsstring) (w : World) : Prop :=
  useAdvancedAutocomplete (ui w) = advanced
  /\ query (ui w) = value
  /\ exists i,
       pendingDebounce w
       = [mkTimer i (clock w + debounceDelay) (DebouncedFetch advanced value)]
       /\ debounceTimer (ui w) = Some i.

(** ** Sample data for the worked scenarios *)

Definition sampleMod (i : nat) : ModResult.t :=
  ModResult.mk (Z.of_nat i) (lit "mod") [lit "author"] [lit "category"]
               (lit "description") (Z.of_nat i) (lit "https://example.org").

Definition samplePage (q : jsstring) (n : nat) : Reply :=
  SearchReply
    (Replied 200 (Some (SearchResponse.mk q (map sampleMod (seq 0 n))))).

Definition sampleSuggestions (q : jsstring) (l : list jsstring) : Reply :=
  SuggestionsReply (Replied 200 (Some (AutocompleteResponse.mk q (Some l)))).

Definition sampleSummary (i : string) : SummaryResponse.t :=
  SummaryResponse.mk (lit i) (lit "mod") (lit "a summary").

Definition tinkers : jsstring := lit "tinkers".

(** A text [encodeURIComponent] throws on: a leading surrogate alone. *)
Definition loneSurrogate : jsstring := [55296%N].

(** A first page of ten results has been received for "tinkers". *)
Definition firstPageLoaded : World :=
  run [InputChange tinkers; KeyDown Enter; Respond 0 (samplePage tinkers 10)]
      initialWorld.

(** A first page of three results only. *)
Definition shortPageLoaded : World :=
  run [InputChange tinkers; KeyDown Enter; Respond 0 (samplePage tinkers 3)]
      initialWorld.

(** The summary of the first result is on display. *)
Definition summaryShown : World :=
  run [ClickSummarize 0;
       Respond 1 (SummaryReply (Replied 200 (Some (sampleSummary "0"))))]
      firstPageLoaded.

(** Two suggestion requests are out: number 0 for "a", then number 1 for
    "ab". *)
Definition twoSuggestionRequests : World :=
  run [InputChange (lit "a"); Elapse 1000;
       InputChange (lit "ab"); Elapse 1000]
      initialWorld.

(** ** Further parts of the page *)

(** The cleanup returned by the [useEffect] without dependencies: it runs
    when the page is unmounted. *)
Definition unmount : Action := fun w =>
  match debounceTimer (ui w) with
  | Some t => clearTimeout t w
  | None => w
  end.

(** The "no mods discovered" panel:
    [searchQuery && searchResults.length === 0 && !isSearching]. *)
Definition emptyStateRendered (s : State) : bool :=
  truthy (searchQuery s)
  && (length (searchResults s) =? 0)
  && negb (isSearching s).

Definition isSummaryRequest (p : nat * Awaiting) : bool :=
  match snd p with
  | AwaitSummary => true
  | _ => false
  end.

(** What holds of the session and of the pending requests in every run. *)
Definition steady (w : World) : Prop :=
  (hasMoreResults (ui w) = true -> pageSize <= length (searchResults (ui w)))
  /\ (searchQuery (ui w) = [] \/ blank (searchQuery (ui w)) = false)
  /\ NoDup (map fst (inflight w))
  /\ (forall p, In p (inflight w) -> fst p < nextRequest w)
  /\ length (filter isSummaryRequest (inflight w))
     = (if isLoadingSummary (ui w) then 1 else 0).

(** The load-more button is clicked and the page asked for arrives, once
    for each page of [pages]. *)
Fixpoint loadPages (pages : list (list ModResult.t)) (w : World) : World :=
  match pages with
  | [] => w
  | page :: rest =>
      let reply :=
        SearchReply
          (Replied 200
             (Some (SearchResponse.mk (searchQuery (ui w)) page))) in
      loadPages rest
        (dispatch (Respond (nextRequest w) reply) (dispatch ClickLoadMore w))
  end.

(** A session in which the load-more button is rendered and enabled, for a
    committed query that is not blank and can be URI-encoded. *)
Definition paging (w : World) : Prop :=
  blank (searchQuery (ui w)) = false
  /\ uriEncodable (searchQuery (ui w)) = true
  /\ isSearching (ui w) = false
  /\ hasMoreResults (ui w) = true
  /\ searchResults (ui w) <> []
  /\ (forall p, In p (inflight w) -> fst p < nextRequest w).

(** Two worlds that differ in their timers at most. *)
Definition alike (w w' : World) : Prop :=
  ui w = ui w'
  /\ inflight w = inflight w'
  /\ nextRequest w = nextRequest w'
  /\ trace w = trace w'.

(** ** The second component, [MinecraftModSearch], as a whole *)

Fixpoint jseqb (a b : jsstring) : bool :=
  match a, b with
  | [], [] => true
  | x :: a', y :: b' => N.eqb x y && jseqb a' b'
  | _, _ => false
  end.

Module ModSearchPage.

Record SearchResponse := mkSearchResponse {
  query_ : jsstring;
  results_ : list ModSearch.Mod
}.

(** This component's own [interface AutocompleteResponse]. *)
Module AutocompleteResponse.
Record t := mk { query : jsstring; suggestions : list jsstring }.
End AutocompleteResponse.

(** The [useState] cells; the three of the summary dialog are those of
    [ModSearch.SummaryCells]. *)
Record State := mkState {
  query : jsstring;
  results : list ModSearch.Mod;
  suggestions : list jsstring;
  loading : bool;
  summary : ModSearch.SummaryCells;
  showSuggestions : bool
}.

(** The requests of this component: autocomplete always asks the [sayt]
    endpoint, and the search URL carries no [offset]. *)
Inductive Request :=
| GetAutocomplete (q : jsstring) (size : nat)
| GetSearch (q : jsstring) (size : nat)
| GetSummary (modId : jsstring).

Inductive Effect :=
| Http (r : Request)
| ConsoleError (msg : string)
| ToastInfo (msg : jsstring)
| ToastError (msg : string).

(** The rest of each [async] function; a search keeps its [searchQuery]
    for the message of the toast. *)
Inductive Awaiting :=
| AwaitSuggestions
| AwaitSearch (searchQuery : jsstring)
| AwaitSummary.

Inductive Reply :=
| SuggestionsReply (o : Outcome AutocompleteResponse.t)
| SearchReply (o : Outcome SearchResponse)
| SummaryReply (o : Outcome SummaryResponse.t).

(** [timer] is the pending timer of the one debounced function the page
    keeps ([useCallback] with no dependencies): the time it is due and the
    argument it was called with.  The function clears its timer before it
    sets one, and nothing else of the page sets a timer. *)
Record World := mkWorld {
  ui : State;
  clock : nat;
  timer : option (nat * jsstring);
  inflight : list (nat * Awaiting);
  nextRequest : nat;
  trace : list Effect
}.

Definition onUi (f : State -> State) (w : World) : World :=
  mkWorld (f (ui w)) (clock w) (timer w) (inflight w) (nextRequest w)
          (trace w).

Definition setQuery (v : jsstring) : World -> World :=
  onUi (fun s => mkState v (results s) (suggestions s) (loading s)
                         (summary s) (showSuggestions s)).

Definition setResults (v : list ModSearch.Mod) : World -> World :=
  onUi (fun s => mkState (query s) v (suggestions s) (loading s)
                         (summary s) (showSuggestions s)).

Definition setSuggestions (v : list jsstring) : World -> World :=
  onUi (fun s => mkState (query s) (results s) v (loading s)
                         (summary s) (showSuggestions s)).

Definition setLoading (v : bool) : World -> World :=
  onUi (fun s => mkState (query s) (results s) (suggestions s) v
                         (summary s) (showSuggestions s)).

Definition setSummary (v : ModSearch.SummaryCells) : World -> World :=
  onUi (fun s => mkState (query s) (results s) (suggestions s) (loading s)
                         v (showSuggestions s)).

Definition setShowSuggestions (v : bool) : World -> World :=
  onUi (fun s => mkState (query s) (results s) (suggestions s) (loading s)
                         (summary s) v).

Definition emit (e : Effect) (w : World) : World :=
  mkWorld (ui w) (clock w) (timer w) (inflight w) (nextRequest w)
          (trace w ++ [e]).

Definition fetch (r : Request) (k : Awaiting) (w : World) : World :=
  mkWorld (ui w) (clock w) (timer w)
          (inflight w ++ [(nextRequest w, k)]) (S (nextRequest w))
          (trace w ++ [Http r]).

Definition debounceDelay : nat := 300.

(** The function [debounce] returns, applied to [searchQuery]:
    [clearTimeout(timeoutId)], then [setTimeout]. *)
Definition fetchSuggestions (searchQuery : jsstring) (w : World) : World :=
  mkWorld (ui w) (clock w) (Some (clock w + debounceDelay, searchQuery))
          (inflight w) (nextRequest w) (trace w).

(** The function that is debounced, up to its [await]. *)
Definition fetchSuggestions_fire (searchQuery : jsstring) (w : World)
  : World :=
  if blank searchQuery then setSuggestions [] w
  else if uriEncodable searchQuery then
    fetch (GetAutocomplete searchQuery 5) AwaitSuggestions w
  else
    (* the URL is built inside the [try]: no request, the [catch] logs *)
    emit (ConsoleError "Error fetching suggestions:") w.

(** The same, from its [await] on. *)
Definition fetchSuggestions_resume (o : Outcome AutocompleteResponse.t)
    (w : World) : World :=
  match o with
  | Rejected => emit (ConsoleError "Error fetching suggestions:") w
  | Replied status body =>
      if ModSearch.ok status then
        match body with
        | Some data =>
            setSuggestions (AutocompleteResponse.suggestions data) w
        | None => emit (ConsoleError "Error fetching suggestions:") w
        end
      else w
  end.

(** [useEffect(() => fetchSuggestions(query), [query, fetchSuggestions])]:
    the effect runs after a render in which [query] has changed. *)
Definition queryEffect (before : jsstring) (w : World) : World :=
  if jseqb before (query (ui w)) then w
  else fetchSuggestions (query (ui w)) w.

(** The code unit of the double quote. *)
Definition quote : jsstring := [34%N].

Definition noModsMessage (searchQuery : jsstring) : jsstring :=
  lit "No mods found for " ++ quote ++ searchQuery ++ quote
  ++ lit ". Try different keywords.".

Definition searchFailed (w : World) : World :=
  emit (ToastError "Failed to search for mods. Please try again.")
       (emit (ConsoleError "Search error:") w).

(** [handleSearch(searchQuery = query)], up to its [await]; where the URL
    cannot be built, which happens inside the [try], to its end. *)
Definition handleSearch (arg : option jsstring) (w : World) : World :=
  let searchQuery :=
    match arg with Some s => s | None => query (ui w) end in
  if blank searchQuery then w
  else
    let w' := setShowSuggestions false (setLoading true w) in
    if uriEncodable searchQuery then
      fetch (GetSearch searchQuery 20) (AwaitSearch searchQuery) w'
    else setLoading false (searchFailed w').

(** [handleSearch] from its [await] on. *)
Definition handleSearch_resume (searchQuery : jsstring)
    (o : Outcome SearchResponse) (w : World) : World :=
  setLoading false
    match o with
    | Rejected => searchFailed w
    | Replied status body =>
        if ModSearch.ok status then
          match body with
          | Some data =>
              let w' := setResults (results_ data) w in
              if length (results_ data) =? 0
              then emit (ToastInfo (noModsMessage searchQuery)) w'
              else w'
          | None => searchFailed w
          end
        else searchFailed w
    end.

(** [handleModClick], up to its [await]. *)
Definition handleModClick (m : ModSearch.Mod) (w : World) : World :=
  let (cells, modId) := ModSearch.handleModClick m (summary (ui w)) in
  fetch (GetSummary modId) AwaitSummary (setSummary cells w).

(** [handleModClick] from its [await] on; the [catch] also logs. *)
Definition handleModClick_resume (o : Outcome SummaryResponse.t)
    (w : World) : World :=
  let w' := setSummary (ModSearch.handleModClick_resume o (summary (ui w)))
                       w in
  match o with
  | Rejected => emit (ConsoleError "Error fetching summary:") w'
  | Replied status None =>
      if ModSearch.ok status
      then emit (ConsoleError "Error fetching summary:") w'
      else w'
  | Replied _ (Some _) => w'
  end.

Definition handleSuggestionClick (suggestion : jsstring) (w : World)
  : World :=
  queryEffect (query (ui w))
    (handleSearch (Some suggestion)
       (setShowSuggestions false (setQuery suggestion w))).

Definition handleKeyDown (key : Key) (w : World) : World :=
  match key with
  | Enter => handleSearch None w
  | Escape => setShowSuggestions false w
  | OtherKey => w
  end.

(** The inline [onChange] of the input, and the effect that follows. *)
Definition onChange (value : jsstring) (w : World) : World :=
  queryEffect (query (ui w)) (setShowSuggestions true (setQuery value w)).

(** [onOpenChange] of the dialog: [setSelectedMod(null)]. *)
Definition onOpenChange (w : World) : World :=
  setSummary (ModSearch.mkCells None
                (ModSearch.modSummary (summary (ui w)))
                (ModSearch.summaryLoading (summary (ui w)))) w.

(** Time passes; the debounce timer fires when it is due. *)
Definition elapse (ms : nat) (w : World) : World :=
  let now := clock w + ms in
  match timer w with
  | Some (due, searchQuery) =>
      if due <=? now then
        fetchSuggestions_fire searchQuery
          (mkWorld (ui w) now None (inflight w) (nextRequest w) (trace w))
      else mkWorld (ui w) now (timer w) (inflight w) (nextRequest w)
                   (trace w)
  | None => mkWorld (ui w) now None (inflight w) (nextRequest w) (trace w)
  end.

Fixpoint awaiting (id : nat) (l : list (nat * Awaiting)) : option Awaiting :=
  match l with
  | [] => None
  | (i, k) :: r => if i =? id then Some k else awaiting id r
  end.

Definition settle (id : nat) (w : World) : World :=
  mkWorld (ui w) (clock w) (timer w)
          (filter (fun p => negb (fst p =? id)) (inflight w))
          (nextRequest w) (trace w).

Definition respond (id : nat) (r : Reply) (w : World) : World :=
  match awaiting id (inflight w), r with
  | Some AwaitSuggestions, SuggestionsReply o =>
      fetchSuggestions_resume o (settle id w)
  | Some (AwaitSearch searchQuery), SearchReply o =>
      handleSearch_resume searchQuery o (settle id w)
  | Some AwaitSummary, SummaryReply o =>
      handleModClick_resume o (settle id w)
  | _, _ => w
  end.

Inductive Event :=
| Change (value : jsstring)
| KeyDown (key : Key)
| ClickSearch
| FocusInput
| ClickSuggestion (index : nat)
| ClickMod (index : nat)
| CloseDialog
| Elapse (ms : nat)
| Respond (id : nat) (r : Reply).

Definition dispatch (e : Event) (w : World) : World :=
  match e with
  | Change value => onChange value w
  | KeyDown key => handleKeyDown key w
  | ClickSearch => if loading (ui w) then w else handleSearch None w
  | FocusInput => setShowSuggestions true w
  | ClickSuggestion index =>
      if showSuggestions (ui w) then
        match nth_error (suggestions (ui w)) index with
        | Some suggestion => handleSuggestionClick suggestion w
        | None => w
        end
      else w
  | ClickMod index =>
      match nth_error (results (ui w)) index with
      | Some m => handleModClick m w
      | None => w
      end
  | CloseDialog =>
      match ModSearch.selectedMod (summary (ui w)) with
      | Some _ => onOpenChange w
      | None => w
      end
  | Elapse ms => elapse ms w
  | Respond id r => respond id r w
  end.

Definition run (es : list Event) (w : World) : World :=
  fold_left (fun w' e => dispatch e w') es w.

Definition initialState : State :=
  mkState [] [] [] false (ModSearch.mkCells None [] false) false.

(** The page after its first render: the effect has run once, with the
    empty query. *)
Definition mounted : World :=
  fetchSuggestions [] (mkWorld initialState 0 None [] 0 []).

(** A burst of changes of the input, as [typing] above. *)
Definition typing (first : jsstring) (more : list (nat * jsstring))
  : list Event :=
  Change first :: flat_map (fun p => [Elapse (fst p); Change (snd p)]) more.

(** Every change of the burst changes the text. *)
Fixpoint changing (before : jsstring) (values : list jsstring) : bool :=
  match values with
  | [] => true
  | v :: rest => negb (jseqb before v) && changing v rest
  end.

(** The category badges of a result card: the first three, and the count of
    the others when there are any. *)
Definition shownCategories (categories : list jsstring) : list jsstring :=
  firstn 3 categories.

Definition moreBadge (categories : list jsstring) : option nat :=
  if 3 <? length categories then Some (length categories - 3) else None.

(** Whether the [try] block of [handleSearch] threw: at [fetch], at the
    [throw] for a status that is not ok, or at [response.json()]. *)
Definition searchThrew (o : Outcome SearchResponse) : bool :=
  match o with
  | Rejected => true
  | Replied status body =>
      if ModSearch.ok status
      then match body with Some _ => false | None => true end
      else true
  end.

Definition sampleMod (i : string) : ModSearch.Mod :=
  ModSearch.mkMod (lit i) (lit "mod") [lit "author"] [lit "category"]
                  (lit "description") 1 (lit "https://example.org").

(** Two results are on display. *)
Definition twoResults : World :=
  run [Change tinkers; KeyDown Enter;
       Respond 0 (SearchReply
                    (Replied 200
                       (Some (mkSearchResponse tinkers
                                [sampleMod "1"; sampleMod "2"]))))]
      mounted.

End ModSearchPage.

(** * Properties *)

Unset Implicit Arguments.

(** ** Unfolding the handlers *)

Ltac setters :=
  unfold setQuery, setSearchResults, updSearchResults, setSuggestions,
    setShowSuggestions, setIsSearching, setCurrentPage, setHasMoreResults,
    setSelectedSummary, setIsLoadingSummary, setUseAdvancedAutocomplete,
    setSearchQuery, setDebounceTimer, onUi, consoleError, emit, fetch,
    settle, skip, andThen.

Ltac handlers :=
  unfold handleKeyPress, handleInputChange, onFocus, onBlur,
    handleSuggestionClick, loadMoreResults, handleSearch, performSearch,
    fetchSummary, fetchSuggestions, fetchSuggestions_catch,
    performSearch_catch, setTimeout, clearTimeout,
    performSearch_resume, fetchSuggestions_resume, fetchSummary_resume;
  setters.

Ltac conjuncts := repeat match goal with |- _ /\ _ => split end.

(** ** Replies and the handlers they resume *)

Lemma respond_search (w : World) (id page : nat)
    (o : Outcome SearchResponse.t) :
  awaiting id (inflight w) = Some (AwaitSearch page) ->
  respond id (SearchReply o) w = performSearch_resume page o (settle id w).
Proof. intros H. unfold respond. rewrite H. reflexivity. Qed.

Lemma respond_suggestions (w : World) (id : nat)
    (o : Outcome AutocompleteResponse.t) :
  awaiting id (inflight w) = Some AwaitSuggestions ->
  respond id (SuggestionsReply o) w = fetchSuggestions_resume o (settle id w).
Proof. intros H. unfold respond. rewrite H. reflexivity. Qed.

Lemma respond_summary (w : World) (id : nat)
    (o : Outcome SummaryResponse.t) :
  awaiting id (inflight w) = Some AwaitSummary ->
  respond id (SummaryReply o) w = fetchSummary_resume o (settle id w).
Proof. intros H. unfold respond. rewrite H. reflexivity. Qed.

Lemma threw_cases {A : Type} (o : Outcome A) :
  threw o = true -> o = Rejected \/ exists status, o = Replied status None.
Proof.
  destruct o as [|status [data|]]; simpl; intros H.
  - now left.
  - discriminate.
  - right. now exists status.
Qed.

(** A failed search fetch, whatever its page: the [catch] and [finally]
    blocks. *)
Lemma search_failure (w : World) (id page : nat)
    (o : Outcome SearchResponse.t) :
  awaiting id (inflight w) = Some (AwaitSearch page) ->
  threw o = true ->
  respond id (SearchReply o) w =
  (settle id ;; consoleError "Error searching:" ;; setSearchResults [] ;;
   setHasMoreResults false ;; setIsSearching false) w.
Proof.
  intros Hid Ho. rewrite (respond_search _ _ _ _ Hid).
  destruct o as [|status [data|]]; try discriminate; reflexivity.
Qed.

Lemma search_success (w : World) (id page : nat) (status : Z)
    (data : SearchResponse.t) :
  awaiting id (inflight w) = Some (AwaitSearch page) ->
  let w' := respond id (SearchReply (Replied status (Some data))) w in
  searchResults (ui w') =
    (if page =? 0 then SearchResponse.results data
     else searchResults (ui w) ++ SearchResponse.results data)
  /\ hasMoreResults (ui w') =
       (length (SearchResponse.results data) =? pageSize)
  /\ currentPage (ui w') = page
  /\ isSearching (ui w') = false
  /\ trace w' = trace w.
Proof.
  intros Hid w'. subst w'. rewrite (respond_search _ _ _ _ Hid).
  unfold performSearch_resume, andThen.
  destruct (page =? 0); simpl; repeat split; reflexivity.
Qed.

(** A fresh request number is the one [fetch] parks the handler under. *)
Lemma awaiting_app_fresh (l : list (nat * Awaiting)) (id : nat)
    (k : Awaiting) :
  awaiting id l = None -> awaiting id (l ++ [(id, k)]) = Some k.
Proof.
  induction l as [|[i k'] l IH]; simpl; intros H.
  - now rewrite Nat.eqb_refl.
  - destruct (i =? id); [discriminate | auto].
Qed.

Lemma awaiting_settle_other (l : list (nat * Awaiting)) (a b : nat) :
  a <> b ->
  awaiting a (filter (fun p => negb (fst p =? b)) l) = awaiting a l.
Proof.
  intros Hab. induction l as [|[i k] l IH]; simpl; [reflexivity|].
  destruct (Nat.eqb_spec i b) as [->|Hib]; simpl.
  - destruct (Nat.eqb_spec b a) as [->|_]; [congruence | exact IH].
  - now rewrite IH.
Qed.

(** The handlers resumed by a reply leave the pending requests alone. *)
Lemma inflight_respond (id : nat) (r : Reply) (w : World) :
  inflight (respond id r w) = inflight w
  \/ inflight (respond id r w)
     = filter (fun p => negb (fst p =? id)) (inflight w).
Proof.
  unfold respond.
  destruct (awaiting id (inflight w)) as [[|page|]|];
    destruct r as [o|o|o|status0];
    try (now left); right;
    try (destruct o as [|status [data|]]); try reflexivity.
  all: unfold andThen, performSearch_resume, andThen;
    destruct (page =? 0); reflexivity.
Qed.

Lemma awaiting_respond_other (a b : nat) (r : Reply) (w : World) :
  a <> b ->
  awaiting a (inflight (respond b r w)) = awaiting a (inflight w).
Proof.
  intros Hab. destruct (inflight_respond b r w) as [-> | ->];
    [reflexivity | now apply awaiting_settle_other].
Qed.

(** ** Search sessions *)

(** C4.  A successful search reply replaces the results when the requested
    page is 0 and appends to them, in the order received, when it is
    greater; afterwards [hasMoreResults] holds exactly when the reply
    carried [pageSize] = 10 items.  In particular a full first page of 10
    followed by a second page of 3 leaves 13 results and
    [hasMoreResults = false]. *)
Theorem search_success_replaces_or_appends
    (w : World) (id page : nat) (status : Z) (data : SearchResponse.t)
    (first second : list ModResult.t) :
  awaiting id (inflight w) = Some (AwaitSearch page) ->
  length first = 10 ->
  length second = 3 ->
  (let w' := dispatch (Respond id (SearchReply (Replied status (Some data))))
                      w in
   (page = 0 -> searchResults (ui w') = SearchResponse.results data)
   /\ (0 < page ->
       searchResults (ui w')
       = searchResults (ui w) ++ SearchResponse.results data)
   /\ (hasMoreResults (ui w') = true
       <-> length (SearchResponse.results data) = pageSize)
   /\ pageSize = 10)
  /\ (let q := lit "tinkers" in
      let w1 :=
        run [InputChange q; KeyDown Enter;
             Respond 0 (SearchReply
                          (Replied 200 (Some (SearchResponse.mk q first))))]
            initialWorld in
      let w2 :=
        run [ClickLoadMore;
             Respond 1 (SearchReply
                          (Replied 200 (Some (SearchResponse.mk q second))))]
            w1 in
      searchResults (ui w1) = first
      /\ hasMoreResults (ui w1) = true
      /\ searchResults (ui w2) = first ++ second
      /\ length (searchResults (ui w2)) = 13
      /\ hasMoreResults (ui w2) = false
      /\ trace w2 = [Http (GetSearch q 10 0); Http (GetSearch q 10 1)]).
Proof.
  intros Hid Hfirst Hsecond. split.
  - destruct (search_success w id page status data Hid)
      as (Hres & Hmore & _).
    cbv zeta. change (dispatch (Respond id ?r) w) with (respond id r w).
    repeat split.
    + intros ->. exact Hres.
    + intros Hpos. rewrite Hres.
      destruct (Nat.eqb_spec page 0); [lia | reflexivity].
    + rewrite Hmore. apply Nat.eqb_eq.
    + rewrite Hmore. apply Nat.eqb_eq.
  - repeat (destruct first as [|? first]; try discriminate Hfirst).
    repeat (destruct second as [|? second]; try discriminate Hsecond).
    vm_compute. repeat split; reflexivity.
Qed.

Lemma search_success_replaces_or_appends_witness :
  let q := lit "tinkers" in
  let w1 := run [InputChange q; KeyDown Enter; Respond 0 (samplePage q 10)]
                initialWorld in
  let w2 := run [ClickLoadMore; Respond 1 (samplePage q 3)] w1 in
  length (searchResults (ui w2)) = 13 /\ hasMoreResults (ui w2) = false.
Proof.
  pose proof
    (search_success_replaces_or_appends
       (dispatch ClickLoadMore
          (run [InputChange (lit "tinkers"); KeyDown Enter;
                Respond 0 (samplePage (lit "tinkers") 10)] initialWorld))
       1 1 200 (SearchResponse.mk (lit "tinkers") (map sampleMod (seq 0 3)))
       (map sampleMod (seq 0 10)) (map sampleMod (seq 0 3))
       eq_refl eq_refl eq_refl) as [_ (_ & _ & _ & Hlen & Hmore & _)].
  split; [exact Hlen | exact Hmore].
Defined.

(** ** What the timer callbacks leave alone *)

Lemma blank_false_truthy (s : jsstring) : blank s = false -> truthy s = true.
Proof. destruct s; [discriminate | reflexivity]. Qed.

Lemma sameControl_refl (w : World) : sameControl w w.
Proof. unfold sameControl. repeat split. Qed.

Lemma sameControl_trans (a b c : World) :
  sameControl a b -> sameControl b c -> sameControl a c.
Proof.
  unfold sameControl. intros H1 H2.
  decompose [and] H1. decompose [and] H2. repeat split; congruence.
Qed.

Lemma fire_sameControl (cb : TimerCallback) (w : World) :
  sameControl w (fire cb w).
Proof.
  destruct cb as [advanced value|]; unfold fire; handlers;
    [destruct (blank value); [|destruct (uriEncodable value)]|];
    unfold sameControl; simpl; repeat split.
Qed.

Lemma fold_fire_sameControl (l : list Timer) (w : World) :
  sameControl w (fold_left (fun w' t => fire (callback t) w') l w).
Proof.
  revert w. induction l as [|t l IH]; intros w; simpl.
  - apply sameControl_refl.
  - eapply sameControl_trans; [apply fire_sameControl | apply IH].
Qed.

Lemma fire_trace (t : Timer) (w : World) :
  trace (fire (callback t) w) = trace w ++ effectsOf t.
Proof.
  unfold effectsOf, fire. destruct (callback t) as [advanced value|].
  - unfold suggestionEffects, endpointOf. handlers.
    destruct (blank value); simpl; [reflexivity|].
    destruct (uriEncodable value); simpl; now rewrite <- app_assoc.
  - simpl. now rewrite app_nil_r.
Qed.

Lemma fold_fire_trace (l : list Timer) (w : World) :
  trace (fold_left (fun w' t => fire (callback t) w') l w)
  = trace w ++ flat_map effectsOf l.
Proof.
  revert w. induction l as [|t l IH]; intros w; simpl.
  - now rewrite app_nil_r.
  - rewrite IH, fire_trace. now rewrite <- app_assoc.
Qed.

(** Time passing changes nothing of the session but through the
    suggestion callbacks. *)
Lemma elapse_sameControl (ms : nat) (w : World) :
  currentPage (ui (elapse ms w)) = currentPage (ui w)
  /\ useAdvancedAutocomplete (ui (elapse ms w))
     = useAdvancedAutocomplete (ui w)
  /\ debounceTimer (ui (elapse ms w)) = debounceTimer (ui w)
  /\ searchResults (ui (elapse ms w)) = searchResults (ui w)
  /\ clock (elapse ms w) = clock w + ms
  /\ timers (elapse ms w)
     = filter (fun t => negb (isDue (clock w + ms) t)) (timers w).
Proof.
  unfold elapse.
  match goal with
  | |- context [fold_left ?f ?l ?w0] =>
      pose proof (fold_fire_sameControl l w0) as H
  end.
  unfold sameControl in H. simpl in H. decompose [and] H.
  repeat split; assumption.
Qed.




(** C2, as the code has it.  A failed load-more fetch is handled like any
    failed search fetch: the accumulated results are cleared,
    [hasMoreResults] becomes false, and the failure is written to the
    console and nowhere else. *)
Theorem search_failure_clears_results
    (w : World) (id page : nat) (o : Outcome SearchResponse.t) :
  awaiting id (inflight w) = Some (AwaitSearch page) ->
  threw o = true ->
  let w' := dispatch (Respond id (SearchReply o)) w in
  searchResults (ui w') = []
  /\ hasMoreResults (ui w') = false
  /\ isSearching (ui w') = false
  /\ searchQuery (ui w') = searchQuery (ui w)
  /\ trace w' = trace w ++ [ConsoleError "Error searching:"].
Proof.
  intros Hid Ho w'. subst w'.
  change (dispatch (Respond id ?r) w) with (respond id r w).
  rewrite (search_failure w id page o Hid Ho).
  repeat split.
Qed.

(** C2 fails on the code: ten results are on the page, the fetch of the
    next page is rejected, and the page is left with no results and
    [hasMoreResults = false]. *)
Lemma loadMore_failure_keeps_results_counterexample :
  let q := lit "tinkers" in
  let w1 := run [InputChange q; KeyDown Enter; Respond 0 (samplePage q 10);
                 ClickLoadMore] initialWorld in
  let w2 := dispatch (Respond 1 (SearchReply Rejected)) w1 in
  trace w1 = [Http (GetSearch q 10 0); Http (GetSearch q 10 1)]
  /\ length (searchResults (ui w1)) = 10
  /\ hasMoreResults (ui w1) = true
  /\ searchResults (ui w2) <> searchResults (ui w1)
  /\ hasMoreResults (ui w2) <> hasMoreResults (ui w1)
  /\ trace w2 = trace w1 ++ [ConsoleError "Error searching:"].
Proof. vm_compute. repeat split; discriminate. Qed.

Lemma search_failure_clears_results_witness :
  let q := lit "tinkers" in
  let w1 := run [InputChange q; KeyDown Enter; Respond 0 (samplePage q 10);
                 ClickLoadMore] initialWorld in
  searchResults (ui (dispatch (Respond 1 (SearchReply (Replied 502 None)))
                              w1)) = [].
Proof.
  exact (proj1 (search_failure_clears_results
                  (run [InputChange (lit "tinkers"); KeyDown Enter;
                        Respond 0 (samplePage (lit "tinkers") 10);
                        ClickLoadMore] initialWorld)
                  1 1 (Replied 502 None) eq_refl eq_refl)).
Defined.

(** What [loadMoreResults] does when its own guard lets it through. *)
Lemma loadMoreResults_starts (w : World) :
  blank (searchQuery (ui w)) = false ->
  uriEncodable (searchQuery (ui w)) = true ->
  isSearching (ui w) = false ->
  loadMoreResults w
  = (setIsSearching true ;; setShowSuggestions false ;;
     setSearchQuery (searchQuery (ui w)) ;;
     fetch (GetSearch (searchQuery (ui w)) pageSize (currentPage (ui w) + 1))
           (AwaitSearch (currentPage (ui w) + 1))) w.
Proof.
  intros Hquery Hcode Hidle. unfold loadMoreResults, performSearch.
  now rewrite (blank_false_truthy _ Hquery), Hidle, Hquery, Hcode.
Qed.

(** The same, where the URL cannot be built. *)
Lemma loadMoreResults_throws (w : World) :
  blank (searchQuery (ui w)) = false ->
  uriEncodable (searchQuery (ui w)) = false ->
  isSearching (ui w) = false ->
  loadMoreResults w
  = (setIsSearching true ;; setShowSuggestions false ;;
     setSearchQuery (searchQuery (ui w)) ;; performSearch_catch) w.
Proof.
  intros Hquery Hcode Hidle. unfold loadMoreResults, performSearch.
  now rewrite (blank_false_truthy _ Hquery), Hidle, Hquery, Hcode.
Qed.

(** What a submit does for a query that is not blank. *)
Lemma handleSearch_current_query (w : World) :
  handleSearch None w
  = if blank (query (ui w)) then w
    else if uriEncodable (query (ui w)) then
      (setIsSearching true ;; setShowSuggestions false ;;
       setSearchQuery (query (ui w)) ;;
       fetch (GetSearch (query (ui w)) pageSize 0) (AwaitSearch 0)) w
    else
      (setIsSearching true ;; setShowSuggestions false ;;
       setSearchQuery (query (ui w)) ;; performSearch_catch) w.
Proof.
  unfold handleSearch, performSearch, blank.
  destruct (truthy (trim (query (ui w)))); [|reflexivity].
  cbn [negb]. unfold andThen.
  destruct (uriEncodable (query (ui w))); reflexivity.
Qed.




(** C3, as the code has it.  [loadMoreResults] does nothing when no query
    has been committed ([searchQuery] is empty, or blank) or [isSearching]
    holds; a search request that is pending while [isSearching] is false
    does not hold it back, and it does not look at [hasMoreResults].  That last case
    is kept out by the view, which renders the load-more button only under
    [hasMoreResults], so that a click on it does nothing then.  Otherwise,
    for a committed query that can be URI-encoded, [loadMoreResults]
    requests page [currentPage + 1], and a successful reply appends its
    items to the results; for one that cannot, no request is sent and the
    [catch] runs at once. *)
Theorem loadMoreResults_guard
    (w : World) (status : Z) (data : SearchResponse.t) :
  (searchQuery (ui w) = [] \/ blank (searchQuery (ui w)) = true
   \/ isSearching (ui w) = true ->
   loadMoreResults w = w)
  /\ (hasMoreResults (ui w) = false \/ isSearching (ui w) = true ->
      dispatch ClickLoadMore w = w)
  /\ (blank (searchQuery (ui w)) = false ->
      uriEncodable (searchQuery (ui w)) = true ->
      isSearching (ui w) = false ->
      awaiting (nextRequest w) (inflight w) = None ->
      let w1 := loadMoreResults w in
      let w2 := dispatch (Respond (nextRequest w)
                            (SearchReply (Replied status (Some data)))) w1 in
      trace w1
      = trace w ++ [Http (GetSearch (searchQuery (ui w)) pageSize
                                    (currentPage (ui w) + 1))]
      /\ isSearching (ui w1) = true
      /\ searchResults (ui w1) = searchResults (ui w)
      /\ searchResults (ui w2)
         = searchResults (ui w) ++ SearchResponse.results data
      /\ currentPage (ui w2) = currentPage (ui w) + 1)
  /\ (blank (searchQuery (ui w)) = false ->
      uriEncodable (searchQuery (ui w)) = false ->
      isSearching (ui w) = false ->
      let w1 := loadMoreResults w in
      trace w1 = trace w ++ [ConsoleError "Error searching:"]
      /\ inflight w1 = inflight w
      /\ searchResults (ui w1) = []
      /\ hasMoreResults (ui w1) = false
      /\ isSearching (ui w1) = false
      /\ currentPage (ui w1) = currentPage (ui w)).
Proof.
  conjuncts.
  - unfold loadMoreResults. intros [Hempty | [Hblank | Hbusy]].
    + now rewrite Hempty.
    + unfold performSearch. rewrite Hblank.
      now destruct (truthy (searchQuery (ui w)) && negb (isSearching (ui w))).
    + rewrite Hbusy. now rewrite andb_false_r.
  - unfold dispatch, loadMoreEnabled, loadMoreRendered.
    intros [Hmore | Hbusy].
    + rewrite Hmore. now rewrite andb_false_r.
    + rewrite Hbusy. now rewrite andb_false_r.
  - intros Hquery Hcode Hidle Hfresh. cbv zeta.
    rewrite (loadMoreResults_starts w Hquery Hcode Hidle).
    set (next := currentPage (ui w) + 1).
    set (w1 := (setIsSearching true ;; _) w).
    assert (Hid : awaiting (nextRequest w) (inflight w1)
                  = Some (AwaitSearch next)).
    { subst w1. setters. simpl. now apply awaiting_app_fresh. }
    destruct (search_success w1 (nextRequest w) next status data Hid)
      as (Hres & _ & Hpage & _).
    change (dispatch (Respond ?i ?r) ?x) with (respond i r x).
    repeat split; try assumption.
    rewrite Hres. subst next.
    destruct (Nat.eqb_spec (currentPage (ui w) + 1) 0); [lia | reflexivity].
  - intros Hquery Hcode Hidle. cbv zeta.
    rewrite (loadMoreResults_throws w Hquery Hcode Hidle).
    repeat split.
Qed.

(** C3 fails on the code: with a committed query, no fetch in flight and
    [hasMoreResults = false], a call of [loadMoreResults] starts a fetch of
    the next page.  It fails for a fetch in flight too: after Enter twice
    and the reply to the first request, the second request is pending,
    [isSearching] is false, and a click on the load-more button sends the
    request for page 1. *)
Lemma loadMoreResults_ignores_hasMore_counterexample :
  let w := shortPageLoaded in
  let busy := run [InputChange tinkers; KeyDown Enter; KeyDown Enter;
                   Respond 0 (samplePage tinkers 10)] initialWorld in
  hasMoreResults (ui w) = false
  /\ isSearching (ui w) = false
  /\ loadMoreResults w <> w
  /\ isSearching (ui (loadMoreResults w)) = true
  /\ trace (loadMoreResults w)
     = trace w ++ [Http (GetSearch tinkers 10 1)]
  /\ awaiting 1 (inflight busy) = Some (AwaitSearch 0)
  /\ isSearching (ui busy) = false
  /\ trace (dispatch ClickLoadMore busy)
     = trace busy ++ [Http (GetSearch tinkers 10 1)].
Proof.
  cbv zeta. conjuncts; try (vm_compute; reflexivity).
  intros H. apply (f_equal trace) in H. vm_compute in H. discriminate H.
Qed.

Lemma loadMoreResults_guard_witness :
  let w := firstPageLoaded in
  let w1 := loadMoreResults w in
  let w2 := dispatch (Respond (nextRequest w) (samplePage tinkers 3)) w1 in
  searchResults (ui w2) = searchResults (ui w) ++ map sampleMod (seq 0 3)
  /\ dispatch ClickLoadMore shortPageLoaded = shortPageLoaded.
Proof.
  cbv zeta. split.
  - refine (proj1 (proj2 (proj2 (proj2
       (proj1 (proj2 (proj2 (loadMoreResults_guard firstPageLoaded 200
                        (SearchResponse.mk tinkers (map sampleMod (seq 0 3))))))
              _ _ _ _)))));
      vm_compute; reflexivity.
  - refine (proj1 (proj2 (loadMoreResults_guard shortPageLoaded 200
                            (SearchResponse.mk tinkers []))) _).
    left; vm_compute; reflexivity.
Defined.

(** ** Summaries *)

(** C5, as the code has it.  [fetchSummary] sets the loading flag at once
    and sends the request; the summary on display is left as it is until a
    successful reply replaces it. *)
Theorem fetchSummary_keeps_displayed_summary
    (w : World) (modId : Z) (status : Z) (data : SummaryResponse.t) :
  let w1 := fetchSummary modId w in
  let w2 := dispatch (Respond (nextRequest w)
                        (SummaryReply (Replied status (Some data)))) w1 in
  isLoadingSummary (ui w1) = true
  /\ selectedSummary (ui w1) = selectedSummary (ui w)
  /\ trace w1 = trace w ++ [Http (GetSummary modId)]
  /\ (summarizeEnabled modId (ui w) = true ->
      dispatch (ClickSummarize modId) w = w1)
  /\ (awaiting (nextRequest w) (inflight w) = None ->
      selectedSummary (ui w2) = Some data
      /\ isLoadingSummary (ui w2) = false).
Proof.
  cbv zeta. conjuncts; try reflexivity.
  - intros Hon. unfold dispatch. now rewrite Hon.
  - intros Hfresh.
    assert (Hid : awaiting (nextRequest w) (inflight (fetchSummary modId w))
                  = Some AwaitSummary).
    { unfold fetchSummary. setters. simpl. now apply awaiting_app_fresh. }
    change (dispatch (Respond ?i ?r) ?x) with (respond i r x).
    rewrite (respond_summary _ _ _ Hid). split; reflexivity.
Qed.

(** C5 fails on the code: while the summary of one result is on display,
    asking for the summary of another leaves the first one displayed. *)
Lemma fetchSummary_clears_summary_counterexample :
  let w := summaryShown in
  let w' := dispatch (ClickSummarize 1) w in
  selectedSummary (ui w) = Some (sampleSummary "0")
  /\ selectedSummary (ui w') = Some (sampleSummary "0")
  /\ summaryRendered (ui w') = true
  /\ isLoadingSummary (ui w') = true
  /\ trace w' = trace w ++ [Http (GetSummary 1)].
Proof. vm_compute. repeat split. Qed.

Lemma fetchSummary_keeps_displayed_summary_witness :
  let w := summaryShown in
  dispatch (ClickSummarize 1) w = fetchSummary 1 w
  /\ selectedSummary (ui (fetchSummary 1 w)) = selectedSummary (ui w).
Proof.
  cbv zeta.
  pose proof (fetchSummary_keeps_displayed_summary
                summaryShown 1 200 (sampleSummary "1"))
    as (_ & Hkept & _ & Hclick & _).
  split; [apply Hclick; vm_compute; reflexivity | exact Hkept].
Defined.

(** C6, as the code has it.  A failed summary fetch is written to the
    console, the loading flag is cleared, and the summary state is left as
    it was: no text is put in its place.  Nothing is requested again. *)
Theorem summary_failure_leaves_summary
    (w : World) (id : nat) (o : Outcome SummaryResponse.t) :
  awaiting id (inflight w) = Some AwaitSummary ->
  threw o = true ->
  let w' := dispatch (Respond id (SummaryReply o)) w in
  selectedSummary (ui w') = selectedSummary (ui w)
  /\ isLoadingSummary (ui w') = false
  /\ trace w' = trace w ++ [ConsoleError "Error fetching summary:"]
  /\ inflight w' = filter (fun p => negb (fst p =? id)) (inflight w)
  /\ timers w' = timers w.
Proof.
  intros Hid Ho. cbv zeta.
  change (dispatch (Respond id ?r) w) with (respond id r w).
  rewrite (respond_summary _ _ _ Hid).
  destruct o as [|status [data|]]; try discriminate; repeat split.
Qed.

(** C6 fails on the code: the summary fetch is rejected and no summary text
    of any kind is set. *)
Lemma summary_failure_placeholder_counterexample :
  let w := dispatch (ClickSummarize 0) firstPageLoaded in
  let w' := dispatch (Respond 1 (SummaryReply Rejected)) w in
  awaiting 1 (inflight w) = Some AwaitSummary
  /\ selectedSummary (ui w') = None
  /\ summaryRendered (ui w') = false
  /\ isLoadingSummary (ui w') = false
  /\ trace w' = trace w ++ [ConsoleError "Error fetching summary:"].
Proof. vm_compute. repeat split. Qed.

Lemma summary_failure_leaves_summary_witness :
  let w := dispatch (ClickSummarize 0) firstPageLoaded in
  let w' := dispatch (Respond 1 (SummaryReply (Replied 500 None))) w in
  selectedSummary (ui w') = selectedSummary (ui w)
  /\ isLoadingSummary (ui w') = false.
Proof.
  cbv zeta.
  pose proof (summary_failure_leaves_summary
                (dispatch (ClickSummarize 0) firstPageLoaded) 1
                (Replied 500 None)) as H.
  cbv zeta in H.
  refine ((fun H' => conj (proj1 H') (proj1 (proj2 H'))) (H _ _));
    vm_compute; reflexivity.
Defined.

(** ** Suggestions *)

(** C9, as the code has it.  [fetchSuggestions] never looks at the status
    of the response: a body that parses to a value other than [null]
    replaces the suggestion list by its [suggestions] field, [undefined]
    where it has none, and sets the visibility, whatever the status.  The
    list is cleared and hidden, with a console error, exactly when the
    [try] block throws: at [fetch], at the parse, and also at
    [data.suggestions] for a body that parses to [null]; and, before any
    request is sent, at [encodeURIComponent] for a term with a surrogate
    that is not part of a pair. *)
Theorem suggestions_applied_whatever_status
    (w : World) (id : nat) (r : Reply) :
  awaiting id (inflight w) = Some AwaitSuggestions ->
  let w' := dispatch (Respond id r) w in
  let failed (before after : World) :=
    suggestions (ui after) = Some []
    /\ showSuggestions (ui after) = false
    /\ trace after
       = trace before ++ [ConsoleError "Error fetching suggestions:"] in
  (forall status data,
     r = SuggestionsReply (Replied status (Some data)) ->
     suggestions (ui w') = AutocompleteResponse.suggestions data
     /\ showSuggestions (ui w') = true
     /\ suggestionsRendered (ui w')
        = match AutocompleteResponse.suggestions data with
          | Some l => 0 <? length l
          | None => false
          end
     /\ trace w' = trace w)
  /\ (forall o, r = SuggestionsReply o -> threw o = true -> failed w w')
  /\ (forall status, r = SuggestionsNull status -> failed w w')
  /\ (trace w' <> trace w ->
      (exists o, r = SuggestionsReply o /\ threw o = true)
      \/ exists status, r = SuggestionsNull status)
  /\ (forall advanced searchTerm w0,
        blank searchTerm = false ->
        uriEncodable searchTerm = false ->
        let w1 := fetchSuggestions advanced searchTerm w0 in
        inflight w1 = inflight w0
        /\ failed (emit (Call_fetchSuggestions searchTerm) w0) w1).
Proof.
  intros Hid. cbv zeta.
  change (dispatch (Respond id r) w) with (respond id r w).
  conjuncts.
  - intros status data ->. rewrite (respond_suggestions _ _ _ Hid).
    repeat split.
  - intros o -> Ho. rewrite (respond_suggestions _ _ _ Hid).
    destruct o as [|status [data|]]; try discriminate; repeat split.
  - intros status ->. unfold respond. rewrite Hid. repeat split.
  - destruct r as [o|o|o|status]; unfold respond; rewrite Hid;
      try (intros H; now contradiction H).
    + destruct o as [|status [data|]]; intros H.
      * left. now exists Rejected.
      * now contradiction H.
      * left. now exists (Replied status None).
    + intros _. right. now exists status.
  - intros advanced searchTerm w0 Hblank Hcode.
    unfold fetchSuggestions, andThen. rewrite Hblank, Hcode.
    repeat split.
Qed.

(** C9 fails on the code: the reply to request 0 has a body that parses, to
    [null]; neither [fetch] nor the parse throws, and the list is cleared
    and hidden, with a console error.  The same happens, with no request
    sent at all, for a text that cannot be URI-encoded. *)
Lemma suggestions_cleared_without_fetch_or_parse_error_counterexample :
  let w := twoSuggestionRequests in
  let w' := dispatch (Respond 0 (SuggestionsNull 200)) w in
  let w2 := run [InputChange loneSurrogate; Elapse 1000] initialWorld in
  awaiting 0 (inflight w) = Some AwaitSuggestions
  /\ suggestions (ui w') = Some []
  /\ showSuggestions (ui w') = false
  /\ trace w' = trace w ++ [ConsoleError "Error fetching suggestions:"]
  /\ blank loneSurrogate = false
  /\ trace w2 = [Call_fetchSuggestions loneSurrogate;
                 ConsoleError "Error fetching suggestions:"]
  /\ inflight w2 = []
  /\ suggestions (ui w2) = Some []
  /\ showSuggestions (ui w2) = false.
Proof. vm_compute. conjuncts; reflexivity. Qed.

Lemma suggestions_applied_whatever_status_witness :
  let w := twoSuggestionRequests in
  let w' := dispatch (Respond 0 (SuggestionsReply
              (Replied 500 (Some (AutocompleteResponse.mk (lit "a")
                                    (Some [lit "apple"])))))) w in
  suggestions (ui w') = Some [lit "apple"] /\ showSuggestions (ui w') = true.
Proof.
  cbv zeta.
  assert (Hid : awaiting 0 (inflight twoSuggestionRequests)
                = Some AwaitSuggestions) by (vm_compute; reflexivity).
  destruct (suggestions_applied_whatever_status twoSuggestionRequests 0
              (SuggestionsReply
                 (Replied 500 (Some (AutocompleteResponse.mk (lit "a")
                                       (Some [lit "apple"])))))
              Hid) as [Hok _].
  destruct (Hok 500%Z _ eq_refl) as (Hlist & Hshown & _).
  split; [exact Hlist | exact Hshown].
Defined.

(** C1, as the code has it.  Replies are applied in the order they arrive:
    nothing marks a request as superseded.  When the reply to the earlier
    request A arrives after the reply to the later request B has been
    applied, the list displayed is A's. *)
Theorem late_suggestions_overwrite
    (w : World) (a b : nat) (ob : Outcome AutocompleteResponse.t)
    (status : Z) (data : AutocompleteResponse.t) :
  a < b ->
  awaiting a (inflight w) = Some AwaitSuggestions ->
  awaiting b (inflight w) = Some AwaitSuggestions ->
  let w' := run [Respond b (SuggestionsReply ob);
                 Respond a (SuggestionsReply (Replied status (Some data)))]
                w in
  suggestions (ui w') = AutocompleteResponse.suggestions data
  /\ showSuggestions (ui w') = true.
Proof.
  intros Hab Ha Hb. cbv zeta. unfold run. simpl fold_left.
  change (dispatch (Respond ?i ?r) ?x) with (respond i r x).
  assert (Ha' : awaiting a (inflight (respond b (SuggestionsReply ob) w))
                = Some AwaitSuggestions).
  { rewrite awaiting_respond_other; [exact Ha | lia]. }
  rewrite (respond_suggestions _ _ _ Ha'). split; reflexivity.
Qed.

(** C1 fails on the code: request 0 is sent for "a" and request 1 for "ab";
    the reply to request 1 arrives and is displayed; the reply to request 0
    arrives after it and takes its place. *)
Lemma stale_suggestions_discarded_counterexample :
  let w := twoSuggestionRequests in
  let w1 := dispatch (Respond 1 (sampleSuggestions (lit "ab") [lit "abacus"]))
                     w in
  let w2 := dispatch (Respond 0 (sampleSuggestions (lit "a") [lit "apple"]))
                     w1 in
  trace w = [Call_fetchSuggestions (lit "a");
             Http (GetAutocomplete suggester (lit "a") 5);
             Call_fetchSuggestions (lit "ab");
             Http (GetAutocomplete suggester (lit "ab") 5)]
  /\ inflight w = [(0, AwaitSuggestions); (1, AwaitSuggestions)]
  /\ suggestions (ui w1) = Some [lit "abacus"]
  /\ suggestions (ui w2) = Some [lit "apple"]
  /\ suggestions (ui w2) <> Some [lit "abacus"].
Proof. vm_compute. conjuncts; try reflexivity. discriminate. Qed.

Lemma late_suggestions_overwrite_witness :
  let w' := run [Respond 1 (sampleSuggestions (lit "ab") [lit "abacus"]);
                 Respond 0 (sampleSuggestions (lit "a") [lit "apple"])]
                twoSuggestionRequests in
  suggestions (ui w') = Some [lit "apple"] /\ showSuggestions (ui w') = true.
Proof.
  cbv zeta.
  refine (late_suggestions_overwrite twoSuggestionRequests 0 1
            (Replied 200 (Some (AutocompleteResponse.mk (lit "ab")
                                  (Some [lit "abacus"]))))
            200 (AutocompleteResponse.mk (lit "a") (Some [lit "apple"]))
            _ _ _);
    [lia | vm_compute; reflexivity | vm_compute; reflexivity].
Defined.

(** ** Timers *)

Lemma run_app (es1 es2 : list Event) (w : World) :
  run (es1 ++ es2) w = run es2 (run es1 w).
Proof. unfold run. apply fold_left_app. Qed.

Lemma filter_swap {A : Type} (f g : A -> bool) (l : list A) :
  filter f (filter g l) = filter g (filter f l).
Proof.
  induction l as [|x l IH]; simpl; [reflexivity|].
  destruct (f x) eqn:Hf, (g x) eqn:Hg; simpl;
    rewrite ?Hf, ?Hg, IH; reflexivity.
Qed.

Lemma filter_length_le {A : Type} (f : A -> bool) (l : list A) :
  length (filter f l) <= length l.
Proof.
  induction l as [|x l IH]; simpl; [lia|]. destruct (f x); simpl; lia.
Qed.

(** Only debounce timers leave a mark on the trace. *)
Lemma effects_of_debounce_only (l : list Timer) :
  flat_map effectsOf l = flat_map effectsOf (filter isDebounce l).
Proof.
  induction l as [|t l IH]; simpl; [reflexivity|].
  unfold isDebounce, effectsOf at 1.
  destruct (callback t) as [advanced value|] eqn:Hcb; simpl.
  - unfold effectsOf at 2. rewrite Hcb, IH. reflexivity.
  - exact IH.
Qed.

Lemma filter_insertTimer_other (f : Timer -> bool) (t : Timer)
    (l : list Timer) :
  f t = false -> filter f (insertTimer t l) = filter f l.
Proof.
  intros Ht. induction l as [|x l IH]; simpl.
  - now rewrite Ht.
  - destruct (firesBefore t x); simpl.
    + now rewrite Ht.
    + now rewrite IH.
Qed.

Lemma filter_insertTimer_only (f : Timer -> bool) (t : Timer)
    (l : list Timer) :
  f t = true -> filter f l = [] -> filter f (insertTimer t l) = [t].
Proof.
  intros Ht. induction l as [|x l IH]; simpl; intros Hl.
  - now rewrite Ht.
  - destruct (f x) eqn:Hx; [discriminate|].
    destruct (firesBefore t x); simpl.
    + now rewrite Ht, Hx, Hl.
    + rewrite Hx. now apply IH.
Qed.

(** Putting the due timers in firing order does not move a timer that is
    alone of its kind. *)
Lemma filter_firingOrder (f : Timer -> bool) (l : list Timer) :
  length (filter f l) <= 1 -> filter f (firingOrder l) = filter f l.
Proof.
  induction l as [|x l IH]; simpl; [reflexivity|].
  destruct (f x) eqn:Hx; simpl; intros Hlen.
  - assert (Hnone : filter f l = []).
    { destruct (filter f l); [reflexivity | simpl in Hlen; lia]. }
    rewrite Hnone. apply filter_insertTimer_only; [exact Hx|].
    rewrite IH; [exact Hnone | rewrite Hnone; simpl; lia].
  - rewrite filter_insertTimer_other by exact Hx. now apply IH.
Qed.

Lemma elapse_pendingDebounce (ms : nat) (w : World) :
  pendingDebounce (elapse ms w)
  = filter (fun t => negb (isDue (clock w + ms) t)) (pendingDebounce w).
Proof.
  unfold pendingDebounce.
  rewrite (proj2 (proj2 (proj2 (proj2 (proj2 (elapse_sameControl ms w)))))).
  apply filter_swap.
Qed.

(** What time passing adds to the trace, when at most one debounce timer
    is pending. *)
Lemma elapse_trace (ms : nat) (w : World) :
  length (pendingDebounce w) <= 1 ->
  trace (elapse ms w)
  = trace w
    ++ flat_map effectsOf (filter (isDue (clock w + ms)) (pendingDebounce w)).
Proof.
  intros Hone. unfold elapse. rewrite fold_fire_trace. simpl. f_equal.
  rewrite effects_of_debounce_only.
  unfold pendingDebounce in *.
  rewrite (filter_swap (isDue (clock w + ms)) isDebounce).
  rewrite filter_firingOrder; [reflexivity|].
  rewrite (filter_swap isDebounce). 
  eapply Nat.le_trans; [apply filter_length_le | exact Hone].
Qed.

(** ** The debounce invariant *)

Lemma wellFormed_spec (w : World) :
  wellFormed w = true <->
  length (pendingDebounce w) <= 1
  /\ forall t, In t (pendingDebounce w) ->
               debounceTimer (ui w) = Some (timerId t).
Proof.
  unfold wellFormed. rewrite andb_true_iff, Nat.leb_le, forallb_forall.
  split; intros [Hlen Hall]; split; try exact Hlen; intros t Ht.
  - specialize (Hall t Ht). destruct (debounceTimer (ui w)) as [i|];
      [|discriminate].
    apply Nat.eqb_eq in Hall. now subst i.
  - rewrite (Hall t Ht). apply Nat.eqb_refl.
Qed.

Lemma armed_wellFormed (advanced : bool) (value : jsstring) (w : World) :
  armed advanced value w -> wellFormed w = true.
Proof.
  intros (_ & _ & i & Hpending & Href). apply wellFormed_spec.
  rewrite Hpending. split; [simpl; lia|].
  intros t [<- | []]. exact Href.
Qed.

Lemma cleared_debounce (i : nat) (l : list Timer) :
  (forall t, In t (filter isDebounce l) -> timerId t = i) ->
  filter isDebounce (filter (fun x => negb (timerId x =? i)) l) = [].
Proof.
  induction l as [|x l IH]; simpl; intros Hall; [reflexivity|].
  destruct (isDebounce x) eqn:Hx.
  - rewrite (Hall x (or_introl eq_refl)), Nat.eqb_refl. simpl.
    apply IH. intros t Ht. apply Hall. now right.
  - destruct (negb (timerId x =? i)); simpl; rewrite ?Hx; now apply IH.
Qed.

(** A keystroke leaves exactly one debounce timer, its own. *)
Lemma handleInputChange_arms (value : jsstring) (w : World) :
  wellFormed w = true ->
  armed (useAdvancedAutocomplete (ui w)) value (handleInputChange value w)
  /\ trace (handleInputChange value w) = trace w
  /\ clock (handleInputChange value w) = clock w.
Proof.
  intros Hwf. apply wellFormed_spec in Hwf. destruct Hwf as [Hlen Href].
  unfold handleInputChange, andThen, armed.
  change (debounceTimer (ui (setQuery value w))) with (debounceTimer (ui w)).
  destruct (debounceTimer (ui w)) as [i|] eqn:Hi.
  - repeat split. exists (nextTimer w). split; [|reflexivity].
    unfold pendingDebounce. simpl. rewrite filter_app. simpl.
    rewrite cleared_debounce; [reflexivity|].
    intros t Ht. specialize (Href t Ht). congruence.
  - repeat split. exists (nextTimer w). split; [|reflexivity].
    unfold pendingDebounce in *. simpl. rewrite filter_app. simpl.
    destruct (filter isDebounce (timers w)) as [|t l]; [reflexivity|].
    specialize (Href t (or_introl eq_refl)). discriminate.
Qed.

(** Less than the delay after a keystroke nothing of the debounce shows. *)
Lemma elapse_armed_early (advanced : bool) (value : jsstring) (ms : nat)
    (w : World) :
  armed advanced value w ->
  ms < debounceDelay ->
  trace (elapse ms w) = trace w
  /\ wellFormed (elapse ms w) = true
  /\ useAdvancedAutocomplete (ui (elapse ms w)) = advanced.
Proof.
  intros (Hadv & _ & i & Hpending & Href) Hms.
  assert (Hdue : isDue (clock w + ms)
                   (mkTimer i (clock w + debounceDelay)
                            (DebouncedFetch advanced value)) = false).
  { unfold isDue. simpl. apply Nat.leb_gt. lia. }
  split; [|split].
  - rewrite elapse_trace by (rewrite Hpending; simpl; lia).
    rewrite Hpending. simpl. rewrite Hdue. simpl. apply app_nil_r.
  - apply wellFormed_spec. rewrite elapse_pendingDebounce, Hpending.
    simpl. rewrite Hdue. simpl. split; [lia|].
    intros t [<- | []]. simpl.
    now rewrite (proj1 (proj2 (proj2 (elapse_sameControl ms w)))).
  - now rewrite (proj1 (proj2 (elapse_sameControl ms w))).
Qed.

(** A full delay after the keystroke the timer fires. *)
Lemma elapse_armed_late (advanced : bool) (value : jsstring) (ms : nat)
    (w : World) :
  armed advanced value w ->
  debounceDelay <= ms ->
  trace (elapse ms w) = trace w ++ suggestionEffects advanced value
  /\ pendingDebounce (elapse ms w) = [].
Proof.
  intros (Hadv & _ & i & Hpending & Href) Hms.
  assert (Hdue : isDue (clock w + ms)
                   (mkTimer i (clock w + debounceDelay)
                            (DebouncedFetch advanced value)) = true).
  { unfold isDue. simpl. apply Nat.leb_le. lia. }
  split.
  - rewrite elapse_trace by (rewrite Hpending; simpl; lia).
    rewrite Hpending. simpl. rewrite Hdue. simpl.
    unfold effectsOf. simpl. now rewrite app_nil_r.
  - rewrite elapse_pendingDebounce, Hpending. simpl. now rewrite Hdue.
Qed.

Lemma last_cons {A : Type} (l : list A) (x d : A) :
  last (x :: l) d = last l x.
Proof.
  revert x d. induction l as [|y l IH]; intros x d; [reflexivity|].
  change (last (x :: y :: l) d) with (last (y :: l) d).
  now rewrite !IH.
Qed.

(** Further keystrokes, each less than the delay after the one before,
    keep the trace as it is and leave the timer of the last one. *)
Lemma typing_more_armed (more : list (nat * jsstring)) :
  forall (advanced : bool) (value : jsstring) (w : World),
    armed advanced value w ->
    Forall (fun p => fst p < debounceDelay) more ->
    let w' :=
      run (flat_map (fun p => [Elapse (fst p); InputChange (snd p)]) more)
          w in
    armed advanced (last (map snd more) value) w' /\ trace w' = trace w.
Proof.
  induction more as [|[gap text] more IH]; intros advanced value w Harmed Hgaps.
  - split; [exact Harmed | reflexivity].
  - inversion Hgaps as [|p l Hgap Hrest]; subst. simpl in Hgap.
    destruct (elapse_armed_early advanced value gap w Harmed Hgap)
      as (Htrace & Hwf & Hadv).
    destruct (handleInputChange_arms text (elapse gap w) Hwf)
      as (Harmed' & Htrace' & _).
    rewrite Hadv in Harmed'.
    destruct (IH advanced text _ Harmed' Hrest) as [Hlast Hsame].
    cbv zeta in *. simpl flat_map. unfold run in *. simpl fold_left.
    change (dispatch (Elapse gap) w) with (elapse gap w).
    change (dispatch (InputChange text) ?x) with (handleInputChange text x).
    split.
    + change (map snd ((gap, text) :: more)) with (text :: map snd more).
      rewrite last_cons. exact Hlast.
    + rewrite Hsame, Htrace', Htrace. reflexivity.
Qed.

(** C8.  After a burst of keystrokes, each less than the debounce delay
    after the one before and with nothing else in between,
    [fetchSuggestions] is called exactly once, when the delay has elapsed
    after the last keystroke, with the text of the last keystroke.  That
    call sends one autocomplete request for that text; it sends none when
    the text is blank, and none, with a console error, when the text cannot
    be URI-encoded. *)
Theorem debounce_fetches_once_with_last_text
    (w : World) (first : jsstring) (more : list (nat * jsstring))
    (ms : nat) :
  wellFormed w = true ->
  Forall (fun p => fst p < debounceDelay) more ->
  debounceDelay <= ms ->
  let text := lastTyped first more in
  let typed := run (typing first more) w in
  let w' := run (typing first more ++ [Elapse ms]) w in
  trace typed = trace w
  /\ query (ui typed) = text
  /\ trace w'
     = trace w
       ++ Call_fetchSuggestions text
          :: (if blank text then []
              else if uriEncodable text then
                [Http (GetAutocomplete
                         (endpointOf (useAdvancedAutocomplete (ui w)))
                         text 5)]
              else [ConsoleError "Error fetching suggestions:"])
  /\ pendingDebounce w' = [].
Proof.
  intros Hwf Hgaps Hms. cbv zeta. rewrite run_app.
  unfold typing, lastTyped.
  change (run (InputChange first :: ?es) w)
    with (run es (handleInputChange first w)).
  destruct (handleInputChange_arms first w Hwf) as (Harmed & Htrace & _).
  destruct (typing_more_armed more _ _ _ Harmed Hgaps) as [Hlast Hsame].
  cbv zeta in Hlast, Hsame.
  set (typed := run (flat_map _ more) (handleInputChange first w)) in *.
  destruct (elapse_armed_late _ _ ms typed Hlast Hms) as [Hfire Hnone].
  split; [now rewrite Hsame|].
  split; [exact (proj1 (proj2 Hlast))|].
  split; [|exact Hnone].
  change (run [Elapse ms] typed) with (elapse ms typed).
  rewrite Hfire, Hsame, Htrace. reflexivity.
Qed.

Lemma debounce_fetches_once_with_last_text_witness :
  let w' := run (typing (lit "t") [(120, lit "ti"); (999, lit "tin")]
                 ++ [Elapse 1000]) initialWorld in
  trace w' = trace initialWorld
             ++ [Call_fetchSuggestions (lit "tin");
                 Http (GetAutocomplete suggester (lit "tin") 5)].
Proof.
  cbv zeta.
  refine (proj1 (proj2 (proj2
            (debounce_fetches_once_with_last_text initialWorld (lit "t")
               [(120, lit "ti"); (999, lit "tin")] 1000 _ _ _)))).
  - vm_compute; reflexivity.
  - repeat (apply Forall_cons; [simpl; unfold debounceDelay; lia|]).
    apply Forall_nil.
  - unfold debounceDelay; lia.
Defined.

(** ** Submitting while a debounce is pending *)


(** C7, as the code has it.  Submitting, by the Enter key or the search
    button, leaves the debounce timer alone, so the pending timer still
    fires when its delay has elapsed and calls [fetchSuggestions] with the
    text of its keystroke.  For a query that is not blank and can be
    URI-encoded it starts a page-0 search for that query at once; for a
    blank query it does nothing; for one that cannot be URI-encoded it
    sends no request and runs the [catch] at once. *)
Theorem handleSearch_leaves_debounce_pending
    (w : World) (i due : nat) (advanced : bool) (value : jsstring)
    (ms : nat) :
  pendingDebounce w = [mkTimer i due (DebouncedFetch advanced value)] ->
  due <= clock w + ms ->
  let w1 := dispatch (KeyDown Enter) w in
  (isSearching (ui w) = false -> dispatch ClickSearch w = w1)
  /\ timers w1 = timers w
  /\ debounceTimer (ui w1) = debounceTimer (ui w)
  /\ (blank (query (ui w)) = true -> w1 = w)
  /\ (blank (query (ui w)) = false ->
      uriEncodable (query (ui w)) = true ->
      trace w1 = trace w ++ [Http (GetSearch (query (ui w)) pageSize 0)]
      /\ isSearching (ui w1) = true
      /\ searchQuery (ui w1) = query (ui w))
  /\ (blank (query (ui w)) = false ->
      uriEncodable (query (ui w)) = false ->
      trace w1 = trace w ++ [ConsoleError "Error searching:"]
      /\ inflight w1 = inflight w
      /\ isSearching (ui w1) = false
      /\ searchResults (ui w1) = []
      /\ searchQuery (ui w1) = query (ui w))
  /\ trace (dispatch (Elapse ms) w1)
     = trace w1
       ++ Call_fetchSuggestions value
          :: (if blank value then []
              else if uriEncodable value then
                [Http (GetAutocomplete (endpointOf advanced) value 5)]
              else [ConsoleError "Error fetching suggestions:"]).
Proof.
  intros Hpending Hdue. cbv zeta.
  change (dispatch (KeyDown Enter) w) with (handleSearch None w).
  change (dispatch (Elapse ms) ?x) with (elapse ms x).
  assert (Hframe : timers (handleSearch None w) = timers w
                   /\ debounceTimer (ui (handleSearch None w))
                      = debounceTimer (ui w)
                   /\ clock (handleSearch None w) = clock w).
  { rewrite handleSearch_current_query.
    destruct (blank (query (ui w))); [|destruct (uriEncodable (query (ui w)))];
      repeat split. }
  destruct Hframe as (Htimers & Href & Hclock).
  assert (Hpending1 : pendingDebounce (handleSearch None w)
                      = [mkTimer i due (DebouncedFetch advanced value)]).
  { unfold pendingDebounce. now rewrite Htimers. }
  conjuncts.
  - intros Hidle. unfold dispatch, searchButtonEnabled.
    now rewrite Hidle.
  - exact Htimers.
  - exact Href.
  - intros Hblank. now rewrite handleSearch_current_query, Hblank.
  - intros Hblank Hcode. rewrite handleSearch_current_query, Hblank, Hcode.
    repeat split.
  - intros Hblank Hcode. rewrite handleSearch_current_query, Hblank, Hcode.
    repeat split.
  - rewrite elapse_trace by (rewrite Hpending1; simpl; lia).
    rewrite Hpending1, Hclock. simpl. unfold isDue at 1. simpl.
    replace (due <=? clock w + ms) with true
      by (symmetry; now apply Nat.leb_le).
    simpl. unfold effectsOf. simpl. now rewrite app_nil_r.
Qed.

(** C7 fails on the code: a keystroke sets the debounce timer, Enter is
    pressed, and when the delay has elapsed the timer fires all the same
    and requests suggestions. *)
Lemma submit_cancels_debounce_counterexample :
  let w := dispatch (InputChange tinkers) initialWorld in
  let w1 := dispatch (KeyDown Enter) w in
  let w2 := dispatch (Elapse 1000) w1 in
  pendingDebounce w = [mkTimer 0 1000 (DebouncedFetch false tinkers)]
  /\ pendingDebounce w1 = pendingDebounce w
  /\ trace w1 = [Http (GetSearch tinkers 10 0)]
  /\ trace w2 = [Http (GetSearch tinkers 10 0);
                 Call_fetchSuggestions tinkers;
                 Http (GetAutocomplete suggester tinkers 5)].
Proof. vm_compute. conjuncts; reflexivity. Qed.

Lemma handleSearch_leaves_debounce_pending_witness :
  let w := dispatch (InputChange tinkers) initialWorld in
  let w1 := dispatch (KeyDown Enter) w in
  trace (dispatch (Elapse 1000) w1)
  = trace w1 ++ [Call_fetchSuggestions tinkers;
                 Http (GetAutocomplete suggester tinkers 5)].
Proof.
  cbv zeta.
  refine (proj2 (proj2 (proj2 (proj2 (proj2 (proj2
            (handleSearch_leaves_debounce_pending
               (dispatch (InputChange tinkers) initialWorld)
               0 1000 false tinkers 1000 _ _))))))).
  - vm_compute; reflexivity.
  - vm_compute; lia.
Defined.

(** ** The debounce invariant holds in every run *)

Lemma wellFormed_same (w w' : World) :
  timers w' = timers w ->
  debounceTimer (ui w') = debounceTimer (ui w) ->
  wellFormed w' = wellFormed w.
Proof.
  intros Ht Hr. unfold wellFormed, pendingDebounce. now rewrite Ht, Hr.
Qed.

Lemma performSearch_timers (searchTerm : jsstring) (page : nat)
    (w : World) :
  timers (performSearch searchTerm page w) = timers w
  /\ debounceTimer (ui (performSearch searchTerm page w))
     = debounceTimer (ui w).
Proof.
  unfold performSearch.
  destruct (blank searchTerm); [|destruct (uriEncodable searchTerm)];
    now split.
Qed.

Lemma handleSearch_timers (searchTerm : option jsstring) (w : World) :
  timers (handleSearch searchTerm w) = timers w
  /\ debounceTimer (ui (handleSearch searchTerm w)) = debounceTimer (ui w).
Proof.
  unfold handleSearch.
  match goal with |- context [if ?b then _ else _] => destruct b end;
    [apply performSearch_timers | now split].
Qed.

Lemma respond_timers (id : nat) (r : Reply) (w : World) :
  timers (respond id r w) = timers w
  /\ debounceTimer (ui (respond id r w)) = debounceTimer (ui w).
Proof.
  unfold respond.
  destruct (awaiting id (inflight w)) as [[|page|]|];
    destruct r as [o|o|o|status0];
    try (now split); destruct o as [|status [data|]]; try (now split).
  unfold performSearch_resume, andThen. destruct (page =? 0); now split.
Qed.

Lemma wellFormed_dispatch (e : Event) (w : World) :
  wellFormed w = true -> wellFormed (dispatch e w) = true.
Proof.
  intros Hwf.
  assert (Hkeep : forall w', timers w' = timers w
                             /\ debounceTimer (ui w') = debounceTimer (ui w)
                             -> wellFormed w' = true).
  { intros w' [Ht Hr]. now rewrite (wellFormed_same w w' Ht Hr). }
  destruct e as [value|key| | | |index| |modId| |checked|ms|id r];
    unfold dispatch.
  - eapply armed_wellFormed, handleInputChange_arms, Hwf.
  - apply Hkeep. destruct key; unfold handleKeyPress;
      [apply handleSearch_timers | now split | now split].
  - destruct (searchButtonEnabled (ui w)); [|exact Hwf].
    apply Hkeep, handleSearch_timers.
  - apply Hkeep. unfold onFocus, fetchSuggestions, andThen.
    destruct (truthy (trim (query (ui w)))); [|now split].
    destruct (blank (query (ui w)));
      [|destruct (uriEncodable (query (ui w)))]; now split.
  - apply wellFormed_spec in Hwf. apply wellFormed_spec.
    unfold onBlur, setTimeout, pendingDebounce in *. simpl.
    rewrite filter_app. simpl. now rewrite app_nil_r.
  - destruct (suggestionsRendered (ui w)); [|exact Hwf].
    destruct (nth_error (suggestionItems (ui w)) index) as [suggestion|];
      [|exact Hwf].
    apply Hkeep. unfold handleSuggestionClick, andThen.
    destruct (performSearch_timers suggestion 0
                (setShowSuggestions false (setQuery suggestion w)))
      as [-> ->].
    now split.
  - destruct (loadMoreEnabled (ui w)); [|exact Hwf].
    apply Hkeep. unfold loadMoreResults.
    match goal with |- context [if ?b then _ else _] => destruct b end;
      [apply performSearch_timers | now split].
  - destruct (summarizeEnabled modId (ui w)); [|exact Hwf].
    apply Hkeep. now split.
  - destruct (summaryRendered (ui w)); [|exact Hwf].
    apply Hkeep. now split.
  - apply Hkeep. now split.
  - apply wellFormed_spec in Hwf. destruct Hwf as [Hlen Href].
    apply wellFormed_spec. rewrite elapse_pendingDebounce. split.
    + eapply Nat.le_trans; [apply filter_length_le | exact Hlen].
    + intros t Ht. apply filter_In in Ht.
      rewrite (proj1 (proj2 (proj2 (elapse_sameControl ms w)))).
      apply Href, Ht.
  - apply Hkeep, respond_timers.
Qed.

(** In every run from the first render, at most one debounce timer is
    pending, and the ref holds it. *)
Lemma wellFormed_run (es : list Event) (w : World) :
  wellFormed w = true -> wellFormed (run es w) = true.
Proof.
  revert w. induction es as [|e es IH]; intros w Hwf; [exact Hwf|].
  apply (IH (dispatch e w)), wellFormed_dispatch, Hwf.
Qed.

Corollary wellFormed_reachable (es : list Event) :
  wellFormed (run es initialWorld) = true.
Proof. now apply wellFormed_run. Qed.

(** ** The guards on blank text *)

Lemma trimStart_nil_iff (s : jsstring) :
  trimStart s = [] <-> forallb isWhiteSpace s = true.
Proof.
  induction s as [|c s IH]; simpl; [tauto|].
  destruct (isWhiteSpace c); simpl; [exact IH|].
  split; discriminate.
Qed.

Lemma trimStart_all (s : jsstring) :
  forallb isWhiteSpace (trimStart s) = true -> trimStart s = [].
Proof.
  induction s as [|c s IH]; simpl; [reflexivity|].
  destruct (isWhiteSpace c) eqn:Hc; [exact IH|].
  simpl. rewrite Hc. discriminate.
Qed.

Lemma forallb_rev {A : Type} (f : A -> bool) (l : list A) :
  forallb f (rev l) = forallb f l.
Proof.
  induction l as [|x l IH]; simpl; [reflexivity|].
  rewrite forallb_app, IH. simpl. rewrite andb_true_r. apply andb_comm.
Qed.

(** [!s.trim()] holds exactly when [s] has white space only. *)
Lemma blank_spec (s : jsstring) : blank s = forallb isWhiteSpace s.
Proof.
  unfold blank, trim, trimEnd.
  destruct (forallb isWhiteSpace s) eqn:Hs.
  - apply trimStart_nil_iff in Hs. now rewrite Hs.
  - destruct (rev (trimStart (rev (trimStart s)))) as [|c r] eqn:Hr;
      [|reflexivity].
    exfalso.
    apply (f_equal (@rev N)) in Hr. rewrite rev_involutive in Hr. simpl in Hr.
    apply trimStart_nil_iff in Hr. rewrite forallb_rev in Hr.
    apply trimStart_all, trimStart_nil_iff in Hr. congruence.
Qed.

(** ** The summary flow of [MinecraftModSearch] *)

(** In the second component, choosing a mod clears the summary text and
    raises the loading flag before the reply arrives. *)
Lemma handleModClick_clears_summary (m : ModSearch.Mod)
    (s : ModSearch.SummaryCells) :
  let s' := fst (ModSearch.handleModClick m s) in
  ModSearch.selectedMod s' = Some m
  /\ ModSearch.modSummary s' = []
  /\ ModSearch.summaryLoading s' = true.
Proof. repeat split. Qed.

(** In the second component, a failed summary fetch leaves a fixed
    text. *)
Lemma handleModClick_failure_text (o : Outcome SummaryResponse.t)
    (s : ModSearch.SummaryCells) :
  threw o = true ->
  let s' := ModSearch.handleModClick_resume o s in
  ModSearch.summaryLoading s' = false
  /\ (ModSearch.modSummary s' = lit "Failed to load summary."
      \/ ModSearch.modSummary s' = lit "Summary not available for this mod.").
Proof.
  intros Ho. destruct o as [|status [data|]]; try discriminate;
    unfold ModSearch.handleModClick_resume; simpl.
  - split; [reflexivity | now left].
  - destruct (ModSearch.ok status); split; try reflexivity;
      [now left | now right].
Qed.


(** * Further properties of [MinecraftModsSearch] *)

(** ** The debounce timer *)

(** X1.  In every run from the first render at most one debounce timer is
    pending, and it is the one [debounceTimer.current] holds: a keystroke
    always finds and clears the timer of the keystroke before, and no
    other handler sets or loses one. *)
Theorem one_debounce_timer_in_every_run (es : list Event) :
  let w := run es initialWorld in
  length (pendingDebounce w) <= 1
  /\ (forall t, In t (pendingDebounce w) ->
                isDebounce t = true
                /\ debounceTimer (ui w) = Some (timerId t)).
Proof.
  cbv zeta.
  assert (Hrun : forall w, wellFormed w = true ->
                           wellFormed (run es w) = true).
  { induction es as [|e es IH]; intros w Hw; [exact Hw|].
    apply (IH (dispatch e w)), wellFormed_dispatch, Hw. }
  specialize (Hrun initialWorld eq_refl).
  apply wellFormed_spec in Hrun. destruct Hrun as [Hone Href].
  split; [exact Hone|]. intros t Ht. split; [|now apply Href].
  unfold pendingDebounce in Ht. apply filter_In in Ht. apply Ht.
Qed.

(** ** Blank text *)

(** X2.  Text made of white space only, the empty text included, never
    reaches the network: [performSearch] and a submit do nothing at all,
    and [fetchSuggestions] clears and hides the suggestion list without
    sending a request. *)
Theorem blank_text_sends_nothing
    (w : World) (searchTerm : jsstring) (page : nat) (advanced : bool) :
  forallb isWhiteSpace searchTerm = true ->
  performSearch searchTerm page w = w
  /\ (query (ui w) = searchTerm -> dispatch (KeyDown Enter) w = w)
  /\ (let w' := fetchSuggestions advanced searchTerm w in
      suggestions (ui w') = Some []
      /\ showSuggestions (ui w') = false
      /\ inflight w' = inflight w
      /\ trace w' = trace w ++ [Call_fetchSuggestions searchTerm]).
Proof.
  intros Hws. rewrite <- blank_spec in Hws. conjuncts.
  - unfold performSearch. now rewrite Hws.
  - intros Hq. change (dispatch (KeyDown Enter) w) with (handleSearch None w).
    now rewrite handleSearch_current_query, Hq, Hws.
  - cbv zeta. unfold fetchSuggestions, andThen. rewrite Hws. repeat split.
Qed.

Lemma blank_text_sends_nothing_witness :
  performSearch (lit "  ") 0 firstPageLoaded = firstPageLoaded.
Proof.
  exact (proj1 (blank_text_sends_nothing firstPageLoaded (lit "  ") 0 false
                  eq_refl)).
Defined.

(** Text with a character that is not white space, and which can be
    URI-encoded, starts a search: one request for exactly that text,
    untrimmed, with [size = 10] and the page as [offset]; the text becomes
    the committed query, the suggestions are hidden and [isSearching] is
    raised, while results, page counter and [hasMoreResults] stay as they
    are until the reply. *)
Theorem performSearch_starts
    (w : World) (searchTerm : jsstring) (page : nat) :
  existsb (fun c => negb (isWhiteSpace c)) searchTerm = true ->
  uriEncodable searchTerm = true ->
  let w' := performSearch searchTerm page w in
  trace w' = trace w ++ [Http (GetSearch searchTerm 10 page)]
  /\ inflight w' = inflight w ++ [(nextRequest w, AwaitSearch page)]
  /\ searchQuery (ui w') = searchTerm
  /\ isSearching (ui w') = true
  /\ showSuggestions (ui w') = false
  /\ searchResults (ui w') = searchResults (ui w)
  /\ currentPage (ui w') = currentPage (ui w)
  /\ hasMoreResults (ui w') = hasMoreResults (ui w)
  /\ query (ui w') = query (ui w).
Proof.
  intros Hsome Hcode.
  assert (Hblank : blank searchTerm = false).
  { rewrite blank_spec. apply not_true_is_false. intros Hall.
    apply existsb_exists in Hsome. destruct Hsome as (c & Hin & Hc).
    rewrite forallb_forall in Hall. rewrite (Hall c Hin) in Hc.
    discriminate. }
  cbv zeta. unfold performSearch. rewrite Hblank, Hcode. repeat split.
Qed.

Lemma performSearch_starts_witness :
  trace (performSearch (lit " tinkers ") 0 initialWorld)
  = trace initialWorld ++ [Http (GetSearch (lit " tinkers ") 10 0)].
Proof.
  exact (proj1 (performSearch_starts initialWorld (lit " tinkers ") 0
                  eq_refl eq_refl)).
Defined.

(** ** The autocomplete mode *)

(** X3.  Switching the autocomplete mode sends nothing by itself, and a
    debounce timer already set keeps the mode of its keystroke: when it
    fires after the switch, for a text that is not blank and can be
    URI-encoded, its request still goes to the endpoint of the old mode.
    A fetch started after the switch, as on focus, goes to the endpoint of
    the new mode. *)
Theorem pending_debounce_keeps_old_mode
    (w : World) (value : jsstring) (checked : bool) (ms : nat) :
  wellFormed w = true ->
  blank value = false ->
  uriEncodable value = true ->
  debounceDelay <= ms ->
  trace (dispatch (ToggleAutocomplete checked) w) = trace w
  /\ trace (run [InputChange value; ToggleAutocomplete checked; Elapse ms] w)
     = trace w
       ++ [Call_fetchSuggestions value;
           Http (GetAutocomplete
                   (endpointOf (useAdvancedAutocomplete (ui w))) value 5)]
  /\ trace (run [InputChange value; ToggleAutocomplete checked; Focus] w)
     = trace w
       ++ [Call_fetchSuggestions value;
           Http (GetAutocomplete (endpointOf checked) value 5)].
Proof.
  intros Hwf Hvalue Hcode Hms.
  destruct (handleInputChange_arms value w Hwf)
    as ((Hadv & Hquery & i & Hpending & Href) & Htrace & Hclock).
  split; [reflexivity|]. unfold run. simpl fold_left.
  change (dispatch (InputChange value) w) with (handleInputChange value w).
  set (w1 := handleInputChange value w) in *.
  change (dispatch (ToggleAutocomplete checked) w1)
    with (setUseAdvancedAutocomplete checked w1).
  set (w2 := setUseAdvancedAutocomplete checked w1).
  split.
  - change (dispatch (Elapse ms) w2) with (elapse ms w2).
    assert (Hpending2 : pendingDebounce w2 = pendingDebounce w1)
      by reflexivity.
    rewrite elapse_trace by (rewrite Hpending2, Hpending; simpl; lia).
    rewrite Hpending2, Hpending.
    change (clock w2) with (clock w1). cbn [filter].
    unfold isDue at 1. cbn [deadline].
    replace (clock w1 + debounceDelay <=? clock w1 + ms) with true
      by (symmetry; apply Nat.leb_le; lia).
    cbn [flat_map]. unfold effectsOf. cbn [callback].
    unfold suggestionEffects. rewrite Hvalue, Hcode, app_nil_r.
    change (trace w2) with (trace w1). now rewrite Htrace.
  - change (dispatch Focus w2) with (onFocus w2). unfold onFocus.
    change (query (ui w2)) with (query (ui w1)). rewrite Hquery.
    assert (Htruthy : truthy (trim value) = true).
    { unfold blank in Hvalue. now apply negb_false_iff in Hvalue. }
    rewrite Htruthy. unfold fetchSuggestions, andThen.
    rewrite Hvalue, Hcode.
    unfold fetch, emit. cbn [trace]. change (trace w2) with (trace w1).
    rewrite Htrace, <- app_assoc. reflexivity.
Qed.

Lemma pending_debounce_keeps_old_mode_witness :
  trace (run [InputChange tinkers; ToggleAutocomplete true; Elapse 1000]
             initialWorld)
  = trace initialWorld
    ++ [Call_fetchSuggestions tinkers;
        Http (GetAutocomplete suggester tinkers 5)].
Proof.
  refine (proj1 (proj2 (pending_debounce_keeps_old_mode
                          initialWorld tinkers true 1000 _ _ _ _))).
  - vm_compute; reflexivity.
  - vm_compute; reflexivity.
  - vm_compute; reflexivity.
  - unfold debounceDelay; lia.
Defined.

(** ** Searches in flight together *)

(** X4.  The Enter key is not held back by a search in flight: for a
    query that is not blank and can be URI-encoded it sends a second
    request, where the search button, being disabled, does nothing.  The
    reply to the first request then lowers [isSearching] although the
    second request is still pending, which re-enables the button. *)
Theorem enter_starts_second_search
    (w : World) (id page : nat) (o : Outcome SearchResponse.t) :
  isSearching (ui w) = true ->
  blank (query (ui w)) = false ->
  uriEncodable (query (ui w)) = true ->
  awaiting id (inflight w) = Some (AwaitSearch page) ->
  awaiting (nextRequest w) (inflight w) = None ->
  let w1 := dispatch (KeyDown Enter) w in
  let w2 := dispatch (Respond id (SearchReply o)) w1 in
  dispatch ClickSearch w = w
  /\ trace w1 = trace w ++ [Http (GetSearch (query (ui w)) 10 0)]
  /\ awaiting id (inflight w1) = Some (AwaitSearch page)
  /\ awaiting (nextRequest w) (inflight w1) = Some (AwaitSearch 0)
  /\ isSearching (ui w2) = false
  /\ awaiting (nextRequest w) (inflight w2) = Some (AwaitSearch 0)
  /\ searchButtonEnabled (ui w2) = true.
Proof.
  intros Hbusy Hquery Hcode Hid Hfresh. cbv zeta.
  assert (Hne : nextRequest w <> id) by congruence.
  change (dispatch (KeyDown Enter) w) with (handleSearch None w).
  rewrite handleSearch_current_query, Hquery, Hcode.
  set (w1 := (setIsSearching true ;; _) w).
  assert (Hin : inflight w1 = inflight w ++ [(nextRequest w, AwaitSearch 0)])
    by reflexivity.
  assert (Hid1 : awaiting id (inflight w1) = Some (AwaitSearch page)).
  { rewrite Hin. clear - Hid. induction (inflight w) as [|[i k] l IH];
      simpl in *; [discriminate|]. destruct (i =? id); auto. }
  assert (Hnew : awaiting (nextRequest w) (inflight w1)
                 = Some (AwaitSearch 0)).
  { rewrite Hin. now apply awaiting_app_fresh. }
  change (dispatch (Respond id ?r) ?x) with (respond id r x).
  conjuncts.
  - unfold dispatch, searchButtonEnabled. now rewrite Hbusy.
  - reflexivity.
  - exact Hid1.
  - exact Hnew.
  - rewrite (respond_search _ _ _ _ Hid1).
    unfold performSearch_resume, andThen.
    destruct o as [|status [data|]]; reflexivity.
  - rewrite awaiting_respond_other by exact Hne. exact Hnew.
  - unfold searchButtonEnabled. rewrite (respond_search _ _ _ _ Hid1).
    unfold performSearch_resume, andThen.
    destruct o as [|status [data|]]; reflexivity.
Qed.

Lemma enter_starts_second_search_witness :
  let w := run [InputChange tinkers; KeyDown Enter] initialWorld in
  let w2 := run [KeyDown Enter; Respond 0 (samplePage tinkers 10)] w in
  isSearching (ui w2) = false
  /\ awaiting 1 (inflight w2) = Some (AwaitSearch 0).
Proof.
  cbv zeta.
  pose proof (enter_starts_second_search
                (run [InputChange tinkers; KeyDown Enter] initialWorld)
                0 0 (Replied 200 (Some (SearchResponse.mk tinkers
                                         (map sampleMod (seq 0 10))))))
    as H.
  cbv zeta in H.
  refine ((fun H' => conj (proj1 (proj2 (proj2 (proj2 (proj2 H'))))) 
                          (proj1 (proj2 (proj2 (proj2 (proj2 (proj2 H')))))))
            (H _ _ _ _ _));
    vm_compute; reflexivity.
Defined.

(** X5.  Search replies are applied in the order they arrive, and no reply
    touches the committed query: when two page-0 searches are pending and
    the reply to the first one arrives last, its results are the ones
    displayed, under the heading of the query committed last. *)
Theorem late_search_reply_overwrites
    (w : World) (a b : nat) (status statusB : Z)
    (data dataB : SearchResponse.t) :
  a < b ->
  awaiting a (inflight w) = Some (AwaitSearch 0) ->
  awaiting b (inflight w) = Some (AwaitSearch 0) ->
  let w' := run [Respond b (SearchReply (Replied statusB (Some dataB)));
                 Respond a (SearchReply (Replied status (Some data)))] w in
  searchResults (ui w') = SearchResponse.results data
  /\ searchQuery (ui w') = searchQuery (ui w)
  /\ currentPage (ui w') = 0
  /\ isSearching (ui w') = false.
Proof.
  intros Hab Ha Hb. cbv zeta. unfold run. simpl fold_left.
  change (dispatch (Respond ?i ?r) ?x) with (respond i r x).
  assert (Ha' : awaiting a (inflight (respond b (SearchReply
                   (Replied statusB (Some dataB))) w))
                = Some (AwaitSearch 0)).
  { rewrite awaiting_respond_other; [exact Ha | lia]. }
  rewrite (respond_search _ _ _ _ Ha'), (respond_search _ _ _ _ Hb).
  repeat split.
Qed.

Lemma late_search_reply_overwrites_witness :
  let w := run [InputChange (lit "a"); KeyDown Enter;
                InputChange tinkers; KeyDown Enter] initialWorld in
  let w' := run [Respond 1 (samplePage tinkers 10);
                 Respond 0 (samplePage (lit "a") 3)] w in
  searchResults (ui w') = map sampleMod (seq 0 3)
  /\ searchQuery (ui w') = searchQuery (ui w).
Proof.
  cbv zeta.
  pose proof (late_search_reply_overwrites
                (run [InputChange (lit "a"); KeyDown Enter;
                      InputChange tinkers; KeyDown Enter] initialWorld)
                0 1 200 200
                (SearchResponse.mk (lit "a") (map sampleMod (seq 0 3)))
                (SearchResponse.mk tinkers (map sampleMod (seq 0 10))))
    as H.
  cbv zeta in H.
  refine ((fun H' => conj (proj1 H') (proj1 (proj2 H'))) (H _ _ _));
    [lia | vm_compute; reflexivity | vm_compute; reflexivity].
Defined.

(** ** The panels of the view *)

(** X6.  The "no mods discovered" panel is absent on the first render and
    in every state in which [isSearching] holds, hence right after the
    submit of a query that is not blank and can be URI-encoded.  It
    appears when the reply to the request of that submit carries no item,
    and equally when that reply is a failure: a successful search with no
    result and a failed search leave the same page, apart from the console
    error.  After the submit of a query that is not blank and cannot be
    URI-encoded the panel appears at once. *)
Theorem empty_panel_after_no_result_or_failure
    (w : World) (o : Outcome SearchResponse.t) :
  emptyStateRendered initialState = false
  /\ (forall s, isSearching s = true -> emptyStateRendered s = false)
  /\ (blank (query (ui w)) = false ->
      uriEncodable (query (ui w)) = true ->
      awaiting (nextRequest w) (inflight w) = None ->
      threw o = true ->
      let w1 := dispatch (KeyDown Enter) w in
      let none := Replied 200 (Some (SearchResponse.mk (query (ui w)) [])) in
      let w2 := dispatch (Respond (nextRequest w) (SearchReply none)) w1 in
      let w3 := dispatch (Respond (nextRequest w) (SearchReply o)) w1 in
      isSearching (ui w1) = true
      /\ emptyStateRendered (ui w1) = false
      /\ emptyStateRendered (ui w2) = true
      /\ emptyStateRendered (ui w3) = true
      /\ searchResults (ui w3) = searchResults (ui w2)
      /\ hasMoreResults (ui w3) = hasMoreResults (ui w2)
      /\ isSearching (ui w3) = isSearching (ui w2)
      /\ searchQuery (ui w3) = searchQuery (ui w2)
      /\ trace w2 = trace w1
      /\ trace w3 = trace w1 ++ [ConsoleError "Error searching:"])
  /\ (blank (query (ui w)) = false ->
      uriEncodable (query (ui w)) = false ->
      let w1 := dispatch (KeyDown Enter) w in
      emptyStateRendered (ui w1) = true
      /\ trace w1 = trace w ++ [ConsoleError "Error searching:"]
      /\ inflight w1 = inflight w).
Proof.
  conjuncts.
  - reflexivity.
  - intros s Hbusy. unfold emptyStateRendered. rewrite Hbusy.
    now rewrite andb_false_r.
  - intros Hquery Hcode Hfresh Ho. cbv zeta.
    change (dispatch (KeyDown Enter) w) with (handleSearch None w).
    rewrite handleSearch_current_query, Hquery, Hcode.
    set (w1 := (setIsSearching true ;; _) w).
    assert (Hid : awaiting (nextRequest w) (inflight w1)
                  = Some (AwaitSearch 0)).
    { subst w1. setters. simpl. now apply awaiting_app_fresh. }
    change (dispatch (Respond (nextRequest w) (SearchReply o)) w1)
      with (respond (nextRequest w) (SearchReply o) w1).
    change (dispatch (Respond (nextRequest w) (SearchReply ?r)) w1)
      with (respond (nextRequest w) (SearchReply r) w1).
    rewrite (search_failure w1 _ _ o Hid Ho), (respond_search _ _ _ _ Hid).
    assert (Htruthy : truthy (query (ui w)) = true)
      by now apply blank_false_truthy.
    unfold emptyStateRendered. conjuncts; try reflexivity.
    + change (isSearching (ui w1)) with true. now rewrite !andb_false_r.
    + change (searchQuery (ui _)) with (query (ui w)). now rewrite Htruthy.
    + change (searchQuery (ui _)) with (query (ui w)). now rewrite Htruthy.
  - intros Hquery Hcode. cbv zeta.
    change (dispatch (KeyDown Enter) w) with (handleSearch None w).
    rewrite handleSearch_current_query, Hquery, Hcode.
    assert (Htruthy : truthy (query (ui w)) = true)
      by now apply blank_false_truthy.
    unfold emptyStateRendered. conjuncts; try reflexivity.
    change (searchQuery (ui _)) with (query (ui w)). now rewrite Htruthy.
Qed.

Lemma empty_panel_after_no_result_or_failure_witness :
  let w := dispatch (InputChange tinkers) initialWorld in
  let w1 := dispatch (KeyDown Enter) w in
  emptyStateRendered
    (ui (dispatch (Respond (nextRequest w) (SearchReply Rejected)) w1))
  = true
  /\ emptyStateRendered
       (ui (dispatch (KeyDown Enter)
              (dispatch (InputChange loneSurrogate) initialWorld)))
     = true.
Proof.
  cbv zeta. split.
  - refine (proj1 (proj2 (proj2 (proj2
              (proj1 (proj2 (proj2
                 (empty_panel_after_no_result_or_failure
                    (dispatch (InputChange tinkers) initialWorld) Rejected)))
                 _ _ _ _)))));
      vm_compute; reflexivity.
  - refine (proj1
              (proj2 (proj2 (proj2
                 (empty_panel_after_no_result_or_failure
                    (dispatch (InputChange loneSurrogate) initialWorld)
                    Rejected)))
                 _ _));
      vm_compute; reflexivity.
Defined.

(** X7.  A click on a displayed suggestion puts the suggestion in the input
    and hides the list, and it leaves the timers as they are, so a debounce
    timer set by earlier typing stays pending.  When the suggestion is not
    blank and can be URI-encoded the click starts a page-0 search for it;
    when the suggestion is blank nothing is sent and no query is
    committed; when it is not blank and cannot be URI-encoded no request is
    sent and the [catch] of the search runs.  Where no list is displayed,
    or the index is past its end, the click is nothing. *)
Theorem suggestion_click_commits
    (w : World) (index : nat) (suggestion : jsstring) :
  nth_error (suggestionItems (ui w)) index = Some suggestion ->
  showSuggestions (ui w) = true ->
  let w' := dispatch (ClickSuggestion index) w in
  query (ui w') = suggestion
  /\ showSuggestions (ui w') = false
  /\ timers w' = timers w
  /\ (blank suggestion = false ->
      uriEncodable suggestion = true ->
      searchQuery (ui w') = suggestion
      /\ isSearching (ui w') = true
      /\ trace w' = trace w ++ [Http (GetSearch suggestion 10 0)])
  /\ (blank suggestion = true ->
      searchQuery (ui w') = searchQuery (ui w)
      /\ isSearching (ui w') = isSearching (ui w)
      /\ inflight w' = inflight w
      /\ trace w' = trace w)
  /\ (blank suggestion = false ->
      uriEncodable suggestion = false ->
      searchQuery (ui w') = suggestion
      /\ isSearching (ui w') = false
      /\ searchResults (ui w') = []
      /\ inflight w' = inflight w
      /\ trace w' = trace w ++ [ConsoleError "Error searching:"])
  /\ (forall w0, showSuggestions (ui w0) = false ->
                 dispatch (ClickSuggestion index) w0 = w0)
  /\ (forall w0, length (suggestionItems (ui w0)) <= index ->
                 dispatch (ClickSuggestion index) w0 = w0).
Proof.
  intros Hnth Hshown. cbv zeta.
  assert (Hrendered : suggestionsRendered (ui w) = true).
  { unfold suggestionsRendered. rewrite Hshown.
    unfold suggestionItems in Hnth.
    destruct (suggestions (ui w)) as [[|x l]|];
      [destruct index; discriminate | reflexivity
      | destruct index; discriminate]. }
  assert (Hclick : dispatch (ClickSuggestion index) w
                   = handleSuggestionClick suggestion w).
  { unfold dispatch. now rewrite Hrendered, Hnth. }
  rewrite Hclick. unfold handleSuggestionClick, andThen, performSearch.
  conjuncts.
  - destruct (blank suggestion); [|destruct (uriEncodable suggestion)];
      reflexivity.
  - destruct (blank suggestion); [|destruct (uriEncodable suggestion)];
      reflexivity.
  - destruct (blank suggestion); [|destruct (uriEncodable suggestion)];
      reflexivity.
  - intros Hblank Hcode. rewrite Hblank, Hcode. repeat split.
  - intros Hblank. rewrite Hblank. repeat split.
  - intros Hblank Hcode. rewrite Hblank, Hcode. repeat split.
  - intros w0 Hhidden. unfold dispatch, suggestionsRendered.
    now rewrite Hhidden.
  - intros w0 Hshort. unfold dispatch.
    destruct (suggestionsRendered (ui w0)); [|reflexivity].
    apply nth_error_None in Hshort. now rewrite Hshort.
Qed.

Lemma suggestion_click_commits_witness :
  let w := dispatch (Respond 0 (sampleSuggestions (lit "a") [lit "apple"]))
                    twoSuggestionRequests in
  searchQuery (ui (dispatch (ClickSuggestion 0) w)) = lit "apple".
Proof.
  cbv zeta.
  refine (proj1
            (proj1 (proj2 (proj2 (proj2
               (suggestion_click_commits
                  (dispatch (Respond 0 (sampleSuggestions (lit "a")
                                          [lit "apple"]))
                            twoSuggestionRequests)
                  0 (lit "apple") _ _))))
               _ _));
    vm_compute; reflexivity.
Defined.

(** ** Summaries again *)



(** ** Leaving the input *)

Lemma fire_alike (cb : TimerCallback) (w w' : World) :
  alike w w' -> alike (fire cb w) (fire cb w').
Proof.
  intros (Hu & Hi & Hn & Ht). unfold alike.
  destruct cb as [advanced value|];
    unfold fire, fetchSuggestions, fetchSuggestions_catch, andThen;
    [destruct (blank value); [|destruct (uriEncodable value)]|]; setters;
    cbn [ui inflight nextRequest trace];
    rewrite Hu, ?Hi, ?Hn, ?Ht; repeat split.
Qed.

Lemma fold_fire_alike (l : list Timer) (w w' : World) :
  alike w w' ->
  alike (fold_left (fun x t => fire (callback t) x) l w)
        (fold_left (fun x t => fire (callback t) x) l w').
Proof.
  revert w w'. induction l as [|t l IH]; intros w w' H; simpl; [exact H|].
  apply IH, fire_alike, H.
Qed.

Lemma fire_stays_hidden (cb : TimerCallback) (w : World) :
  showSuggestions (ui w) = false -> showSuggestions (ui (fire cb w)) = false.
Proof.
  intros H. destruct cb as [advanced value|]; unfold fire; [|reflexivity].
  unfold fetchSuggestions, andThen.
  destruct (blank value); [reflexivity|].
  destruct (uriEncodable value); [exact H | reflexivity].
Qed.

Lemma fold_fire_stays_hidden (l : list Timer) (w : World) :
  showSuggestions (ui w) = false ->
  showSuggestions (ui (fold_left (fun x t => fire (callback t) x) l w))
  = false.
Proof.
  revert w. induction l as [|t l IH]; intros w H; simpl; [exact H|].
  apply IH, fire_stays_hidden, H.
Qed.

Lemma fold_fire_hides (l : list Timer) (t : Timer) (w : World) :
  In t l ->
  callback t = HideSuggestions ->
  showSuggestions (ui (fold_left (fun x t' => fire (callback t') x) l w))
  = false.
Proof.
  revert w. induction l as [|x l IH]; intros w Hin Hcb; [destruct Hin|].
  simpl. destruct Hin as [-> | Hin].
  - apply fold_fire_stays_hidden. now rewrite Hcb.
  - now apply IH.
Qed.

Lemma In_insertTimer (t x : Timer) (l : list Timer) :
  In x (insertTimer t l) <-> x = t \/ In x l.
Proof.
  induction l as [|y l IH]; simpl.
  - intuition.
  - destruct (firesBefore t y); simpl; [intuition|].
    rewrite IH. intuition.
Qed.

Lemma In_firingOrder (x : Timer) (l : list Timer) :
  In x (firingOrder l) <-> In x l.
Proof.
  induction l as [|y l IH]; simpl; [reflexivity|].
  rewrite In_insertTimer, IH. intuition.
Qed.

(** X9.  Leaving the input changes nothing at once: it sets a timer of
    150 ms.  Until then the page behaves as if the input had not been left,
    so a click on a suggestion still finds the list; from then on the list
    is hidden, whatever other timers fire in between. *)
Theorem blur_hides_after_grace (w : World) (ms : nat) :
  ui (dispatch Blur w) = ui w
  /\ trace (dispatch Blur w) = trace w
  /\ (ms < blurDelay ->
      ui (run [Blur; Elapse ms] w) = ui (dispatch (Elapse ms) w)
      /\ trace (run [Blur; Elapse ms] w) = trace (dispatch (Elapse ms) w))
  /\ (blurDelay <= ms ->
      showSuggestions (ui (run [Blur; Elapse ms] w)) = false).
Proof.
  split; [reflexivity|]. split; [reflexivity|].
  unfold run. simpl fold_left.
  change (dispatch Blur w) with (onBlur w).
  change (dispatch (Elapse ms) ?x) with (elapse ms x).
  set (hide := mkTimer (nextTimer w) (clock w + blurDelay) HideSuggestions).
  assert (Htimers : timers (onBlur w) = timers w ++ [hide]) by reflexivity.
  split.
  - intros Hms.
    assert (Hlate : isDue (clock w + ms) hide = false).
    { unfold isDue, hide. simpl. apply Nat.leb_gt. lia. }
    assert (Halike : alike (elapse ms (onBlur w)) (elapse ms w)).
    { unfold elapse. rewrite Htimers.
      change (clock (onBlur w)) with (clock w).
      rewrite !filter_app. cbn [filter]. rewrite Hlate. cbn [negb].
      rewrite app_nil_r. apply fold_fire_alike.
      unfold alike. repeat split. }
    destruct Halike as (Hu & _ & _ & Ht). now split.
  - intros Hms.
    assert (Hdue : isDue (clock w + ms) hide = true).
    { unfold isDue, hide. simpl. apply Nat.leb_le. lia. }
    unfold elapse. apply (fold_fire_hides _ hide); [|reflexivity].
    apply In_firingOrder, filter_In. split; [|exact Hdue].
    rewrite Htimers. apply in_or_app. right. now left.
Qed.

Lemma blur_hides_after_grace_witness :
  let w := dispatch (Respond 0 (sampleSuggestions (lit "a") [lit "apple"]))
                    twoSuggestionRequests in
  showSuggestions (ui (run [Blur; Elapse 149] w)) = true
  /\ showSuggestions (ui (run [Blur; Elapse 150] w)) = false.
Proof.
  cbv zeta. split.
  - rewrite (proj1 (proj1 (proj2 (proj2 (blur_hides_after_grace
        (dispatch (Respond 0 (sampleSuggestions (lit "a") [lit "apple"]))
                  twoSuggestionRequests) 149)))
        ltac:(unfold blurDelay; lia))).
    vm_compute; reflexivity.
  - apply (proj2 (proj2 (proj2 (blur_hides_after_grace
        (dispatch (Respond 0 (sampleSuggestions (lit "a") [lit "apple"]))
                  twoSuggestionRequests) 150)))).
    unfold blurDelay; lia.
Defined.

(** ** Unmounting *)

(** X10.  The cleanup at unmount clears the pending debounce timer: however
    much time passes afterwards, no suggestion fetch is made. *)
Theorem unmount_cancels_debounce (w : World) (ms : nat) :
  wellFormed w = true ->
  pendingDebounce (unmount w) = []
  /\ trace (unmount w) = trace w
  /\ trace (elapse ms (unmount w)) = trace w.
Proof.
  intros Hwf. apply wellFormed_spec in Hwf. destruct Hwf as [Hlen Href].
  assert (Hnone : pendingDebounce (unmount w) = []).
  { unfold unmount. destruct (debounceTimer (ui w)) as [i|] eqn:Hi.
    - unfold pendingDebounce, clearTimeout. simpl.
      apply cleared_debounce. intros t Ht.
      specialize (Href t Ht). congruence.
    - destruct (pendingDebounce w) as [|t l] eqn:Hp; [reflexivity|].
      specialize (Href t (or_introl eq_refl)). discriminate. }
  assert (Htrace : trace (unmount w) = trace w).
  { unfold unmount. destruct (debounceTimer (ui w)); reflexivity. }
  split; [exact Hnone|]. split; [exact Htrace|].
  rewrite elapse_trace by (rewrite Hnone; simpl; lia).
  rewrite Hnone, Htrace. simpl. apply app_nil_r.
Qed.

Lemma unmount_cancels_debounce_witness :
  let w := dispatch (InputChange tinkers) initialWorld in
  pendingDebounce w <> []
  /\ trace (elapse 5000 (unmount w)) = trace w.
Proof.
  cbv zeta. split; [vm_compute; discriminate|].
  refine (proj2 (proj2 (unmount_cancels_debounce
                          (dispatch (InputChange tinkers) initialWorld)
                          5000 _))).
  vm_compute; reflexivity.
Defined.

(** ** What every run keeps *)

Lemma steady_same (w w' : World) :
  searchResults (ui w') = searchResults (ui w) ->
  hasMoreResults (ui w') = hasMoreResults (ui w) ->
  searchQuery (ui w') = searchQuery (ui w) ->
  isLoadingSummary (ui w') = isLoadingSummary (ui w) ->
  inflight w' = inflight w ->
  nextRequest w' = nextRequest w ->
  steady w -> steady w'.
Proof.
  unfold steady. intros -> -> -> -> -> ->. exact (fun H => H).
Qed.

Ltac same :=
  match goal with
  | H : steady ?w |- steady _ =>
      exact (steady_same w _ eq_refl eq_refl eq_refl eq_refl eq_refl eq_refl
                         H)
  end.

(** A request that is not a summary request leaves the world steady. *)
Lemma steady_fetch (r : Request) (k : Awaiting) (w : World) :
  isSummaryRequest (nextRequest w, k) = false ->
  steady w -> steady (fetch r k w).
Proof.
  intros Hk (Hmore & Hquery & Hdup & Hbound & Hcount).
  unfold steady, fetch. cbn [ui inflight nextRequest].
  split; [exact Hmore|]. split; [exact Hquery|]. split; [|split].
  - rewrite map_app. apply NoDup_app; [exact Hdup | |].
    + simpl. constructor; [intros [] | constructor].
    + intros a Ha [<- | []]. apply in_map_iff in Ha.
      destruct Ha as (p & Hp & Hin). specialize (Hbound p Hin).
      simpl in Hp. lia.
  - intros p Hin. apply in_app_or in Hin. destruct Hin as [Hin | [<- | []]].
    + specialize (Hbound p Hin). lia.
    + simpl. lia.
  - rewrite filter_app, length_app. cbn [filter]. rewrite Hk. simpl.
    rewrite Hcount. lia.
Qed.

Lemma steady_performSearch (searchTerm : jsstring) (page : nat)
    (w : World) :
  steady w -> steady (performSearch searchTerm page w).
Proof.
  intros Hw. unfold performSearch.
  destruct (blank searchTerm) eqn:Hblank; [exact Hw|].
  unfold andThen. destruct (uriEncodable searchTerm).
  - apply steady_fetch; [reflexivity|].
    destruct Hw as (Hmore & Hquery & Hrest).
    split; [exact Hmore|]. split; [now right | exact Hrest].
  - destruct Hw as (Hmore & Hquery & Hrest).
    split; [discriminate|]. split; [now right | exact Hrest].
Qed.

Lemma steady_handleSearch (searchTerm : option jsstring) (w : World) :
  steady w -> steady (handleSearch searchTerm w).
Proof.
  intros Hw. unfold handleSearch.
  match goal with |- context [if ?b then _ else _] => destruct b end;
    [now apply steady_performSearch | exact Hw].
Qed.

Lemma steady_fetchSuggestions (advanced : bool) (searchTerm : jsstring)
    (w : World) :
  steady w -> steady (fetchSuggestions advanced searchTerm w).
Proof.
  intros Hw. unfold fetchSuggestions, andThen.
  destruct (blank searchTerm); [same|].
  destruct (uriEncodable searchTerm); [|same].
  apply steady_fetch; [reflexivity | same].
Qed.

Lemma steady_fold_fire (l : list Timer) (w : World) :
  steady w -> steady (fold_left (fun x t => fire (callback t) x) l w).
Proof.
  revert w. induction l as [|t l IH]; intros w Hw; simpl; [exact Hw|].
  apply IH. destruct (callback t) as [advanced value|]; unfold fire.
  - now apply steady_fetchSuggestions.
  - same.
Qed.

Lemma settled_others (id : nat) (l : list (nat * Awaiting)) :
  ~ In id (map fst l) -> filter (fun p => negb (fst p =? id)) l = l.
Proof.
  induction l as [|[i k] l IH]; simpl; intros Hnot; [reflexivity|].
  destruct (Nat.eqb_spec i id) as [->|Hne]; simpl.
  - exfalso. apply Hnot. now left.
  - rewrite IH; [reflexivity|]. intros Hin. apply Hnot. now right.
Qed.

(** Settling a request removes that request and no other. *)
Lemma settled_count (id : nat) (k : Awaiting) (l : list (nat * Awaiting)) :
  NoDup (map fst l) ->
  awaiting id l = Some k ->
  length (filter isSummaryRequest
            (filter (fun p => negb (fst p =? id)) l))
  + (if isSummaryRequest (id, k) then 1 else 0)
  = length (filter isSummaryRequest l).
Proof.
  induction l as [|[i k'] l IH]; intros Hdup Hid; [discriminate|].
  cbn [awaiting] in Hid. cbn [map fst] in Hdup.
  inversion Hdup as [|x xs Hnot Hdup']; subst.
  cbn [filter fst]. destruct (Nat.eqb_spec i id) as [->|Hne]; cbn [negb].
  - injection Hid as ->. rewrite (settled_others _ _ Hnot).
    cbn [filter]. destruct (isSummaryRequest (id, k)); cbn [length]; lia.
  - cbn [filter]. specialize (IH Hdup' Hid).
    destruct (isSummaryRequest (i, k')); cbn [length]; lia.
Qed.

Lemma steady_settle (id : nat) (k : Awaiting) (w : World) :
  awaiting id (inflight w) = Some k ->
  steady w ->
  (hasMoreResults (ui w) = true -> pageSize <= length (searchResults (ui w)))
  /\ (searchQuery (ui w) = [] \/ blank (searchQuery (ui w)) = false)
  /\ NoDup (map fst (inflight (settle id w)))
  /\ (forall p, In p (inflight (settle id w)) -> fst p < nextRequest w)
  /\ length (filter isSummaryRequest (inflight (settle id w)))
     + (if isSummaryRequest (id, k) then 1 else 0)
     = (if isLoadingSummary (ui w) then 1 else 0).
Proof.
  intros Hid (Hmore & Hquery & Hdup & Hbound & Hcount).
  split; [exact Hmore|]. split; [exact Hquery|].
  unfold settle. cbn [inflight]. split; [|split].
  - clear - Hdup. induction (inflight w) as [|[i k'] l IH]; simpl;
      [constructor|].
    inversion Hdup as [|x xs Hnot Hdup']; subst.
    destruct (negb (i =? id)); simpl; [|now apply IH].
    constructor; [|now apply IH].
    intros Hin. apply Hnot. apply in_map_iff in Hin.
    destruct Hin as (p & Hp & Hin). apply filter_In in Hin.
    apply in_map_iff. exists p. now split.
  - intros p Hin. apply filter_In in Hin. now apply Hbound.
  - rewrite <- Hcount. now apply settled_count.
Qed.

Lemma steady_respond (id : nat) (r : Reply) (w : World) :
  steady w -> steady (respond id r w).
Proof.
  intros Hw. unfold respond.
  destruct (awaiting id (inflight w)) as [k|] eqn:Hid; [|exact Hw].
  destruct (steady_settle id k w Hid Hw)
    as (Hmore & Hquery & Hdup & Hbound & Hcount).
  destruct k as [|page|]; destruct r as [o|o|o|status0]; try exact Hw.
  - (* suggestions *)
    cbn [isSummaryRequest snd] in Hcount. rewrite Nat.add_0_r in Hcount.
    unfold andThen, fetchSuggestions_resume.
    destruct o as [|status [data|]];
      (split; [exact Hmore|]; split; [exact Hquery|]; split; [exact Hdup|];
       split; [exact Hbound | exact Hcount]).
  - (* suggestions, from a body that is null *)
    cbn [isSummaryRequest snd] in Hcount. rewrite Nat.add_0_r in Hcount.
    unfold andThen.
    split; [exact Hmore|]. split; [exact Hquery|]. split; [exact Hdup|].
    split; [exact Hbound | exact Hcount].
  - (* search *)
    cbn [isSummaryRequest snd] in Hcount. rewrite Nat.add_0_r in Hcount.
    unfold andThen, performSearch_resume.
    destruct o as [|status [data|]].
    + split; [discriminate|]. split; [exact Hquery|]. split; [exact Hdup|].
      split; [exact Hbound | exact Hcount].
    + destruct (page =? 0);
        (split; [|split; [exact Hquery|]; split; [exact Hdup|];
                  split; [exact Hbound | exact Hcount]]);
        intros Hfull;
        assert (Hf : (length (SearchResponse.results data) =? pageSize)
                     = true) by exact Hfull;
        apply Nat.eqb_eq in Hf.
      * change (pageSize <= length (SearchResponse.results data)). lia.
      * change (pageSize <= length (searchResults (ui w)
                                    ++ SearchResponse.results data)).
        rewrite length_app. lia.
    + split; [discriminate|]. split; [exact Hquery|]. split; [exact Hdup|].
      split; [exact Hbound | exact Hcount].
  - (* summary *)
    cbn [isSummaryRequest snd] in Hcount.
    assert (Hzero : length (filter isSummaryRequest (inflight (settle id w)))
                    = 0)
      by (destruct (isLoadingSummary (ui w)); lia).
    unfold andThen, fetchSummary_resume.
    destruct o as [|status [data|]];
      (split; [exact Hmore|]; split; [exact Hquery|]; split; [exact Hdup|];
       split; [exact Hbound | exact Hzero]).
Qed.

Lemma steady_dispatch (e : Event) (w : World) :
  steady w -> steady (dispatch e w).
Proof.
  intros Hw.
  destruct e as [value|key| | | |index| |modId| |checked|ms|id r];
    unfold dispatch.
  - unfold handleInputChange, andThen.
    destruct (debounceTimer (ui (setQuery value w))); same.
  - destruct key; unfold handleKeyPress;
      [now apply steady_handleSearch | same | exact Hw].
  - destruct (searchButtonEnabled (ui w));
      [now apply steady_handleSearch | exact Hw].
  - unfold onFocus. destruct (truthy (trim (query (ui w)))); [|exact Hw].
    now apply steady_fetchSuggestions.
  - same.
  - destruct (suggestionsRendered (ui w)); [|exact Hw].
    destruct (nth_error (suggestionItems (ui w)) index) as [suggestion|];
      [|exact Hw].
    unfold handleSuggestionClick, andThen. apply steady_performSearch. same.
  - destruct (loadMoreEnabled (ui w)); [|exact Hw].
    unfold loadMoreResults.
    match goal with |- context [if ?b then _ else _] => destruct b end;
      [now apply steady_performSearch | exact Hw].
  - unfold summarizeEnabled.
    destruct (existsb _ (searchResults (ui w))); [|exact Hw].
    destruct (isLoadingSummary (ui w)) eqn:Hloading; [exact Hw|].
    simpl. destruct Hw as (Hmore & Hquery & Hdup & Hbound & Hcount).
    rewrite Hloading in Hcount.
    unfold fetchSummary, andThen, steady, fetch.
    cbn [ui inflight nextRequest].
    split; [exact Hmore|]. split; [exact Hquery|]. split; [|split].
    + rewrite map_app. apply NoDup_app; [exact Hdup | |].
      * simpl. constructor; [intros [] | constructor].
      * intros a Ha [<- | []]. apply in_map_iff in Ha.
        destruct Ha as (p & Hp & Hin). specialize (Hbound p Hin).
      simpl in Hp. lia.
    + intros p Hin. apply in_app_or in Hin.
      destruct Hin as [Hin | [<- | []]].
      * specialize (Hbound p Hin). simpl. lia.
      * simpl. lia.
    + rewrite filter_app, length_app. simpl. rewrite Hcount. reflexivity.
  - destruct (summaryRendered (ui w)); [same | exact Hw].
  - same.
  - unfold elapse. apply steady_fold_fire. same.
  - now apply steady_respond.
Qed.

Lemma steady_initial : steady initialWorld.
Proof.
  unfold steady. simpl. split; [discriminate|]. split; [now left|].
  split; [constructor|]. split; [intros p []|reflexivity].
Qed.

Lemma steady_run (es : list Event) : steady (run es initialWorld).
Proof.
  assert (H : forall w, steady w -> steady (run es w)).
  { induction es as [|e es IH]; intros w Hw; [exact Hw|].
    apply (IH (dispatch e w)), steady_dispatch, Hw. }
  apply H, steady_initial.
Qed.

(** In every run the number of the next request is fresh. *)
Lemma fresh_in_every_run (es : list Event) :
  awaiting (nextRequest (run es initialWorld))
           (inflight (run es initialWorld)) = None.
Proof.
  destruct (steady_run es) as (_ & _ & _ & Hbound & _).
  induction (inflight (run es initialWorld)) as [|[i k] l IH]; simpl;
    [reflexivity|].
  destruct (Nat.eqb_spec i (nextRequest (run es initialWorld))) as [He|Hne].
  - specialize (Hbound (i, k) (or_introl eq_refl)). simpl in Hbound. lia.
  - apply IH. intros p Hp. apply Hbound. now right.
Qed.

(** X11.  In every run, [hasMoreResults] holds only while at least a full
    page of results is on display.  So the results section, which is
    rendered for a non-empty result list only, never keeps the load-more
    button from being rendered: the button is there exactly when
    [hasMoreResults] holds. *)
Theorem hasMore_only_with_full_page (es : list Event) :
  let w := run es initialWorld in
  (hasMoreResults (ui w) = true -> pageSize <= length (searchResults (ui w)))
  /\ loadMoreRendered (ui w) = hasMoreResults (ui w).
Proof.
  cbv zeta. destruct (steady_run es) as (Hmore & _).
  split; [exact Hmore|]. unfold loadMoreRendered, resultsRendered.
  destruct (hasMoreResults (ui (run es initialWorld)));
    [|apply andb_false_r].
  specialize (Hmore eq_refl). rewrite andb_true_r. apply Nat.ltb_lt.
  unfold pageSize in Hmore. lia.
Qed.

Lemma hasMore_only_with_full_page_witness :
  let w := run [InputChange tinkers; KeyDown Enter;
                Respond 0 (samplePage tinkers 10)] initialWorld in
  pageSize <= length (searchResults (ui w)).
Proof.
  cbv zeta.
  refine (proj1 (hasMore_only_with_full_page
                   [InputChange tinkers; KeyDown Enter;
                    Respond 0 (samplePage tinkers 10)]) _).
  vm_compute; reflexivity.
Defined.

(** When its guards let it through, [loadMoreResults] leaves one more
    entry on the trace: its request, or the console error of its
    [catch]. *)
Lemma loadMoreResults_trace_grows (w : World) :
  blank (searchQuery (ui w)) = false ->
  isSearching (ui w) = false ->
  length (trace (loadMoreResults w)) = S (length (trace w)).
Proof.
  intros Hblank Hidle.
  destruct (uriEncodable (searchQuery (ui w))) eqn:Hcode.
  - rewrite (loadMoreResults_starts w Hblank Hcode Hidle).
    unfold andThen, fetch. cbn [trace]. rewrite length_app.
    change (trace (setSearchQuery _ _)) with (trace w). simpl. lia.
  - rewrite (loadMoreResults_throws w Hblank Hcode Hidle).
    unfold andThen, performSearch_catch, andThen.
    change (trace (setIsSearching false ?x)) with (trace x).
    change (trace (setHasMoreResults false ?x)) with (trace x).
    change (trace (setSearchResults [] ?x)) with (trace x).
    unfold consoleError, emit. cbn [trace]. rewrite length_app.
    change (trace (setSearchQuery _ _)) with (trace w). simpl. lia.
Qed.

(** X12.  In every run the committed query is either empty or has a
    character that is not white space.  So the test [searchQuery &&] of
    [loadMoreResults] and the trim guard of [performSearch] agree:
    [loadMoreResults] does nothing exactly when no query is committed or
    [isSearching] holds. *)
Theorem committed_query_never_blank (es : list Event) :
  let w := run es initialWorld in
  truthy (searchQuery (ui w)) = negb (blank (searchQuery (ui w)))
  /\ (loadMoreResults w = w
      <-> searchQuery (ui w) = [] \/ isSearching (ui w) = true).
Proof.
  cbv zeta. destruct (steady_run es) as (_ & Hquery & _).
  set (w := run es initialWorld) in *. split.
  - destruct Hquery as [-> | Hblank]; [reflexivity|].
    now rewrite Hblank, (blank_false_truthy _ Hblank).
  - split.
    + intros Hnothing.
      destruct (searchQuery (ui w)) as [|c s] eqn:Hq; [now left|].
      destruct (isSearching (ui w)) eqn:Hidle; [now right|].
      exfalso. destruct Hquery as [Hempty | Hblank]; [discriminate|].
      rewrite <- Hq in Hblank.
      pose proof (loadMoreResults_trace_grows w Hblank Hidle) as Hgrows.
      rewrite Hnothing in Hgrows. lia.
    + unfold loadMoreResults. intros [Hempty | Hbusy].
      * now rewrite Hempty.
      * rewrite Hbusy. now rewrite andb_false_r.
Qed.

(** X13.  In every run at most one summary request is in flight, and one
    is in flight exactly while [isLoadingSummary] holds: every summarize
    button is disabled from the click until the reply, so summary replies
    cannot overtake one another. *)
Theorem one_summary_request_at_a_time (es : list Event) (modId : Z) :
  let w := run es initialWorld in
  length (filter isSummaryRequest (inflight w))
  = (if isLoadingSummary (ui w) then 1 else 0)
  /\ (filter isSummaryRequest (inflight w) <> [] ->
      dispatch (ClickSummarize modId) w = w).
Proof.
  cbv zeta. destruct (steady_run es) as (_ & _ & _ & _ & Hcount).
  split; [exact Hcount|]. intros Hsome.
  unfold dispatch, summarizeEnabled.
  destruct (isLoadingSummary (ui (run es initialWorld))).
  - now rewrite andb_false_r.
  - destruct (filter isSummaryRequest (inflight (run es initialWorld)));
      [now contradiction Hsome | discriminate].
Qed.

Lemma one_summary_request_at_a_time_witness :
  let w := run [InputChange tinkers; KeyDown Enter;
                Respond 0 (samplePage tinkers 10); ClickSummarize 0]
               initialWorld in
  dispatch (ClickSummarize 1) w = w.
Proof.
  cbv zeta.
  refine (proj2 (one_summary_request_at_a_time
                   [InputChange tinkers; KeyDown Enter;
                    Respond 0 (samplePage tinkers 10); ClickSummarize 0] 1)
                _).
  vm_compute; discriminate.
Defined.

(** ** Paging through the results *)

Lemma awaiting_below (n : nat) (l : list (nat * Awaiting)) :
  (forall p, In p l -> fst p < n) -> awaiting n l = None.
Proof.
  induction l as [|[i k] l IH]; simpl; intros Hbound; [reflexivity|].
  destruct (Nat.eqb_spec i n) as [He|Hne].
  - specialize (Hbound (i, k) (or_introl eq_refl)). simpl in Hbound. lia.
  - apply IH. intros p Hp. apply Hbound. now right.
Qed.

(** One click on the button and the arrival of the page asked for. *)
Lemma loadPages_step (page : list ModResult.t) (w : World) :
  paging w ->
  let reply :=
    SearchReply
      (Replied 200 (Some (SearchResponse.mk (searchQuery (ui w)) page))) in
  let w' := dispatch (Respond (nextRequest w) reply)
                     (dispatch ClickLoadMore w) in
  searchResults (ui w') = searchResults (ui w) ++ page
  /\ currentPage (ui w') = currentPage (ui w) + 1
  /\ hasMoreResults (ui w') = (length page =? pageSize)
  /\ isSearching (ui w') = false
  /\ searchQuery (ui w') = searchQuery (ui w)
  /\ trace w'
     = trace w ++ [Http (GetSearch (searchQuery (ui w)) pageSize
                                   (currentPage (ui w) + 1))]
  /\ (forall p, In p (inflight w') -> fst p < nextRequest w').
Proof.
  intros (Hquery & Hcode & Hidle & Hmore & Hsome & Hbound). cbv zeta.
  assert (Hclick : dispatch ClickLoadMore w = loadMoreResults w).
  { unfold dispatch, loadMoreEnabled, loadMoreRendered, resultsRendered.
    rewrite Hmore, Hidle.
    destruct (searchResults (ui w)); [now contradiction Hsome|].
    reflexivity. }
  rewrite Hclick, (loadMoreResults_starts w Hquery Hcode Hidle).
  set (next := currentPage (ui w) + 1).
  set (w1 := (setIsSearching true ;; _) w).
  assert (Hid : awaiting (nextRequest w) (inflight w1)
                = Some (AwaitSearch next)).
  { subst w1. setters. simpl. apply awaiting_app_fresh.
    now apply awaiting_below. }
  change (dispatch (Respond ?i ?r) ?x) with (respond i r x).
  rewrite (respond_search _ _ _ _ Hid).
  unfold performSearch_resume, andThen.
  assert (Hnext : (next =? 0) = false) by (apply Nat.eqb_neq; subst next; lia).
  rewrite Hnext. conjuncts; try reflexivity.
  intros p Hin.
  change (In p (filter (fun q => negb (fst q =? nextRequest w))
                       (inflight w ++ [(nextRequest w, AwaitSearch next)])))
    in Hin.
  change (fst p < S (nextRequest w)).
  apply filter_In in Hin. destruct Hin as [Hin _].
  apply in_app_or in Hin. destruct Hin as [Hin | [<- | []]].
  - specialize (Hbound p Hin). lia.
  - simpl. lia.
Qed.

(** X14.  Pages append in the order they are asked for.  From a session
    with the load-more button enabled, for a committed query that is not
    blank and can be URI-encoded, clicking it and receiving a full page,
    time after time, sends the requests for the pages
    [currentPage + 1], [currentPage + 2], ... of the committed query, one
    after the other, and leaves the results followed by those pages in that
    order, with the page counter advanced by their number. *)
Theorem pages_append_in_order
    (pages : list (list ModResult.t)) (w : World) :
  paging w ->
  Forall (fun page => length page = pageSize) pages ->
  let w' := loadPages pages w in
  searchResults (ui w') = searchResults (ui w) ++ concat pages
  /\ currentPage (ui w') = currentPage (ui w) + length pages
  /\ trace w'
     = trace w
       ++ map (fun i => Http (GetSearch (searchQuery (ui w)) pageSize
                                        (currentPage (ui w) + S i)))
              (seq 0 (length pages))
  /\ paging w'.
Proof.
  revert w. induction pages as [|page pages IH]; intros w Hw Hfull; cbv zeta.
  - simpl. rewrite !app_nil_r, Nat.add_0_r. conjuncts; try reflexivity.
    exact Hw.
  - inversion Hfull as [|x xs Hpage Hrest]; subst.
    destruct (loadPages_step page w Hw)
      as (Hres & Hcur & Hmore & Hidle & Hquery & Htrace & Hbound).
    cbv zeta in Hres, Hcur, Hmore, Hidle, Hquery, Htrace, Hbound.
    cbn [loadPages].
    set (w1 := dispatch (Respond (nextRequest w) _) (dispatch ClickLoadMore w))
      in *.
    assert (Hw1 : paging w1).
    { destruct Hw as (Hq & Hc & _). unfold paging.
      rewrite Hquery, Hidle, Hmore, Hres, Hpage, Nat.eqb_refl.
      repeat split; try assumption.
      intros Hnil. apply app_eq_nil in Hnil. destruct Hnil as [_ Hnil].
      rewrite Hnil in Hpage. discriminate. }
    destruct (IH w1 Hw1 Hrest) as (Hres' & Hcur' & Htrace' & Hw').
    cbv zeta in Hres', Hcur', Htrace', Hw'.
    rewrite Hres', Hcur', Htrace', Hres, Hcur, Htrace, Hquery.
    rewrite concat_cons. cbn [length seq map].
    rewrite <- seq_shift, map_map, <- !app_assoc.
    conjuncts; try exact Hw'; try lia; try reflexivity.
    f_equal. cbn [app]. f_equal.
    apply map_ext. intros i. do 2 f_equal. lia.
Qed.

Lemma pages_append_in_order_witness :
  let pages := [map sampleMod (seq 10 10); map sampleMod (seq 20 10)] in
  let w' := loadPages pages firstPageLoaded in
  searchResults (ui w')
  = searchResults (ui firstPageLoaded) ++ concat pages
  /\ currentPage (ui w') = currentPage (ui firstPageLoaded) + 2.
Proof.
  cbv zeta.
  pose proof (pages_append_in_order
                [map sampleMod (seq 10 10); map sampleMod (seq 20 10)]
                firstPageLoaded) as H.
  cbv zeta in H.
  refine ((fun H' => conj (proj1 H') (proj1 (proj2 H'))) (H _ _)).
  - unfold paging. conjuncts; try (vm_compute; reflexivity).
    + vm_compute; discriminate.
    + intros p Hin. vm_compute in Hin. destruct Hin.
  - repeat (apply Forall_cons; [vm_compute; reflexivity|]). apply Forall_nil.
Defined.


(** * Properties of the second component, [MinecraftModSearch] *)

Lemma jseqb_eq (a b : jsstring) : jseqb a b = true <-> a = b.
Proof.
  revert b. induction a as [|x a IH]; destruct b as [|y b]; simpl;
    try (split; [discriminate | discriminate]); [tauto|].
  rewrite andb_true_iff, N.eqb_eq, IH.
  split; [intros [-> ->]; reflexivity | intros H; injection H; auto].
Qed.

Module PageFacts.
Import ModSearchPage.

Lemma page_respond_search (w : World) (id : nat) (searchQuery : jsstring)
    (o : Outcome SearchResponse) :
  awaiting id (inflight w) = Some (AwaitSearch searchQuery) ->
  respond id (SearchReply o) w
  = handleSearch_resume searchQuery o (settle id w).
Proof. intros H. unfold respond. now rewrite H. Qed.

Lemma page_respond_summary (w : World) (id : nat)
    (o : Outcome SummaryResponse.t) :
  awaiting id (inflight w) = Some AwaitSummary ->
  respond id (SummaryReply o) w = handleModClick_resume o (settle id w).
Proof. intros H. unfold respond. now rewrite H. Qed.



Lemma page_awaiting_settle_other (l : list (nat * Awaiting)) (a b : nat) :
  a <> b ->
  awaiting a (filter (fun p => negb (fst p =? b)) l) = awaiting a l.
Proof.
  intros Hab. induction l as [|[i k] l IH]; simpl; [reflexivity|].
  destruct (Nat.eqb_spec i b) as [->|Hib]; simpl.
  - destruct (Nat.eqb_spec b a) as [->|_]; [congruence | exact IH].
  - now rewrite IH.
Qed.

(** ** Searching *)

(** X15.  In the second component a failed search leaves the results on
    display as they are.  Whether the fetch was rejected, the status was
    not ok or the body did not parse, the failure is logged, exactly one
    error toast is shown, and the loading flag is lowered. *)
Theorem page_search_failure_keeps_results
    (w : World) (id : nat) (searchQuery : jsstring)
    (o : Outcome SearchResponse) :
  awaiting id (inflight w) = Some (AwaitSearch searchQuery) ->
  searchThrew o = true ->
  let w' := dispatch (Respond id (SearchReply o)) w in
  results (ui w') = results (ui w)
  /\ loading (ui w') = false
  /\ query (ui w') = query (ui w)
  /\ trace w'
     = trace w
       ++ [ConsoleError "Search error:";
           ToastError "Failed to search for mods. Please try again."].
Proof.
  intros Hid Ho. cbv zeta.
  change (dispatch (Respond id ?r) w) with (respond id r w).
  rewrite (page_respond_search _ _ _ _ Hid).
  unfold handleSearch_resume.
  destruct o as [|status [data|]]; simpl in Ho;
    try (destruct (ModSearch.ok status); try discriminate);
    unfold searchFailed, emit, setLoading, onUi; cbn [ui trace results
      loading query]; rewrite <- ?app_assoc; repeat split.
Qed.

Lemma page_search_failure_keeps_results_witness :
  let w := handleSearch None twoResults in
  results (ui (dispatch (Respond 1 (SearchReply (Replied 500 None))) w))
  = results (ui w).
Proof.
  cbv zeta.
  refine (proj1 (page_search_failure_keeps_results
                   (handleSearch None twoResults) 1 tinkers
                   (Replied 500 None) _ _));
    vm_compute; reflexivity.
Defined.



(** ** Suggestions *)



(** The state right after a change of the text. *)
Lemma page_onChange_arms (value : jsstring) (w : World) :
  jseqb (query (ui w)) value = false ->
  let w' := onChange value w in
  timer w' = Some (clock w + debounceDelay, value)
  /\ query (ui w') = value
  /\ clock w' = clock w
  /\ trace w' = trace w.
Proof.
  intros Hnew. cbv zeta. unfold onChange, queryEffect.
  cbn [ui query setShowSuggestions setQuery onUi]. rewrite Hnew.
  repeat split.
Qed.

Lemma page_typing_more (more : list (nat * jsstring)) :
  forall (value : jsstring) (w : World),
    timer w = Some (clock w + debounceDelay, value) ->
    query (ui w) = value ->
    changing value (map snd more) = true ->
    Forall (fun p => fst p < debounceDelay) more ->
    let w' :=
      run (flat_map (fun p => [Elapse (fst p); Change (snd p)]) more) w in
    timer w' = Some (clock w' + debounceDelay, last (map snd more) value)
    /\ query (ui w') = last (map snd more) value
    /\ trace w' = trace w.
Proof.
  induction more as [|[gap text] more IH];
    intros value w Htimer Hquery Hchanging Hgaps; cbv zeta.
  - repeat split; assumption.
  - inversion Hgaps as [|p l Hgap Hrest]; subst. simpl in Hgap.
    cbn [map snd changing] in Hchanging.
    apply andb_true_iff in Hchanging. destruct Hchanging as [Hnew Hmore].
    apply negb_true_iff in Hnew.
    cbn [flat_map app fst snd]. unfold run. cbn [fold_left].
    change (dispatch (Elapse gap) w) with (elapse gap w).
    set (w1 := elapse gap w).
    assert (Hw1 : query (ui w1) = query (ui w) /\ trace w1 = trace w).
    { subst w1. unfold elapse. rewrite Htimer.
      replace (clock w + debounceDelay <=? clock w + gap) with false
        by (symmetry; apply Nat.leb_gt; lia).
      split; reflexivity. }
    destruct Hw1 as [Hq1 Ht1].
    change (dispatch (Change text) w1) with (onChange text w1).
    assert (Hnew1 : jseqb (query (ui w1)) text = false)
      by now rewrite Hq1.
    destruct (page_onChange_arms text w1 Hnew1)
      as (Htimer2 & Hquery2 & Hclock2 & Htrace2).
    cbv zeta in Htimer2, Hquery2, Hclock2, Htrace2.
    rewrite <- Hclock2 in Htimer2.
    destruct (IH text (onChange text w1) Htimer2 Hquery2 Hmore Hrest)
      as (Htimer3 & Hquery3 & Htrace3).
    cbv zeta in Htimer3, Hquery3, Htrace3. unfold run in *.
    change (map snd ((gap, text) :: more)) with (text :: map snd more).
    rewrite last_cons. conjuncts; try assumption.
    now rewrite Htrace3, Htrace2, Ht1.
Qed.

(** X18.  The debounce of the second component: after a burst of changes of
    the text, each less than 300 ms after the one before, no request has
    been sent; when 300 ms have passed after the last change, one
    autocomplete request is sent, for the last text, unless that text is
    blank, in which case the list is cleared and nothing is sent, or
    cannot be URI-encoded, in which case nothing is sent and the failure
    is logged.  A change event that leaves the text as it is does not
    restart the timer. *)
Theorem page_debounce_fetches_last_text
    (w : World) (first : jsstring) (more : list (nat * jsstring))
    (ms : nat) :
  changing (query (ui w)) (first :: map snd more) = true ->
  Forall (fun p => fst p < debounceDelay) more ->
  debounceDelay <= ms ->
  let text := last (map snd more) first in
  let typed := run (typing first more) w in
  let w' := run (typing first more ++ [Elapse ms]) w in
  trace typed = trace w
  /\ query (ui typed) = text
  /\ trace w'
     = trace w
       ++ (if blank text then []
           else if uriEncodable text then [Http (GetAutocomplete text 5)]
           else [ConsoleError "Error fetching suggestions:"])
  /\ (blank text = true -> suggestions (ui w') = [])
  /\ timer w' = None
  /\ timer (onChange (query (ui w)) w) = timer w.
Proof.
  intros Hchanging Hgaps Hms. cbv zeta.
  cbn [changing] in Hchanging. apply andb_true_iff in Hchanging.
  destruct Hchanging as [Hnew Hmore]. apply negb_true_iff in Hnew.
  destruct (page_onChange_arms first w Hnew)
    as (Htimer & Hquery & Hclock & Htrace).
  cbv zeta in Htimer, Hquery, Hclock, Htrace. rewrite <- Hclock in Htimer.
  destruct (page_typing_more more first (onChange first w)
              Htimer Hquery Hmore Hgaps) as (Htimer2 & Hquery2 & Htrace2).
  cbv zeta in Htimer2, Hquery2, Htrace2.
  assert (Hrun : forall es, run (typing first more ++ es) w
                 = run es (run (flat_map (fun p => [Elapse (fst p);
                                                     Change (snd p)]) more)
                               (onChange first w))).
  { intros es. unfold typing, run. rewrite <- app_comm_cons.
    cbn [fold_left]. now rewrite fold_left_app. }
  rewrite <- (app_nil_r (typing first more)) at 1 2.
  rewrite !Hrun.
  set (typed := run (flat_map _ more) (onChange first w)) in *.
  change (run [] typed) with typed.
  change (run [Elapse ms] typed) with (elapse ms typed).
  assert (Hfire : elapse ms typed
                  = fetchSuggestions_fire (last (map snd more) first)
                      (mkWorld (ui typed) (clock typed + ms) None
                               (inflight typed) (nextRequest typed)
                               (trace typed))).
  { unfold elapse. rewrite Htimer2.
    replace (clock typed + debounceDelay <=? clock typed + ms) with true
      by (symmetry; apply Nat.leb_le; lia).
    reflexivity. }
  rewrite Hfire. unfold fetchSuggestions_fire.
  conjuncts.
  - now rewrite Htrace2.
  - exact Hquery2.
  - destruct (blank (last (map snd more) first));
      [|destruct (uriEncodable (last (map snd more) first))];
      cbn [trace setSuggestions onUi fetch emit];
      rewrite Htrace2, Htrace; [now rewrite app_nil_r | |]; reflexivity.
  - intros Hblank. now rewrite Hblank.
  - destruct (blank (last (map snd more) first));
      [|destruct (uriEncodable (last (map snd more) first))]; reflexivity.
  - unfold onChange, queryEffect.
    cbn [ui query setShowSuggestions setQuery onUi].
    now rewrite (proj2 (jseqb_eq _ _) eq_refl).
Qed.

Lemma page_debounce_fetches_last_text_witness :
  let w' := run (typing (lit "t") [(120, lit "ti"); (299, lit "tin")]
                 ++ [Elapse 300]) mounted in
  trace w' = trace mounted ++ [Http (GetAutocomplete (lit "tin") 5)].
Proof.
  cbv zeta.
  refine (proj1 (proj2 (proj2
            (page_debounce_fetches_last_text mounted (lit "t")
               [(120, lit "ti"); (299, lit "tin")] 300 _ _ _)))).
  - vm_compute; reflexivity.
  - repeat (apply Forall_cons; [simpl; unfold debounceDelay; lia|]).
    apply Forall_nil.
  - unfold debounceDelay; lia.
Defined.

(** X19.  In the second component a click on a displayed suggestion that
    is not blank, can be URI-encoded and differs from the text of the
    input commits it: the text becomes the suggestion, the list is hidden
    and a search request for it is sent.  As the click changes the text it
    also restarts the debounce, so that 300 ms later an autocomplete
    request for the suggestion follows. *)
Theorem page_suggestion_click_searches_and_rearms
    (w : World) (index : nat) (suggestion : jsstring) (ms : nat) :
  showSuggestions (ui w) = true ->
  nth_error (suggestions (ui w)) index = Some suggestion ->
  blank suggestion = false ->
  uriEncodable suggestion = true ->
  jseqb (query (ui w)) suggestion = false ->
  debounceDelay <= ms ->
  let w' := dispatch (ClickSuggestion index) w in
  query (ui w') = suggestion
  /\ showSuggestions (ui w') = false
  /\ loading (ui w') = true
  /\ trace w' = trace w ++ [Http (GetSearch suggestion 20)]
  /\ timer w' = Some (clock w + debounceDelay, suggestion)
  /\ trace (dispatch (Elapse ms) w')
     = trace w' ++ [Http (GetAutocomplete suggestion 5)].
Proof.
  intros Hshown Hnth Hblank Hcode Hnew Hms. cbv zeta.
  assert (Hclick : dispatch (ClickSuggestion index) w
                   = fetchSuggestions suggestion
                       (fetch (GetSearch suggestion 20)
                          (AwaitSearch suggestion)
                          (setShowSuggestions false
                             (setLoading true
                                (setShowSuggestions false
                                   (setQuery suggestion w)))))).
  { unfold dispatch. rewrite Hshown, Hnth.
    unfold handleSuggestionClick, handleSearch, queryEffect. cbv zeta.
    rewrite Hblank, Hcode.
    cbn [ui query fetch setShowSuggestions setLoading setQuery onUi].
    now rewrite Hnew. }
  rewrite Hclick. conjuncts; try reflexivity.
  change (dispatch (Elapse ms) ?x) with (elapse ms x).
  unfold elapse, fetchSuggestions. cbn [timer clock fetch
    setShowSuggestions setLoading setQuery onUi].
  replace (clock w + debounceDelay <=? clock w + ms) with true
    by (symmetry; apply Nat.leb_le; lia).
  unfold fetchSuggestions_fire. rewrite Hblank, Hcode. reflexivity.
Qed.

Lemma page_suggestion_click_searches_and_rearms_witness :
  let w := run [Change (lit "t"); Elapse 300;
                Respond 0 (SuggestionsReply
                             (Replied 200
                                (Some (AutocompleteResponse.mk (lit "t")
                                         [tinkers]))))] mounted in
  let w' := dispatch (ClickSuggestion 0) w in
  trace (dispatch (Elapse 300) w')
  = trace w' ++ [Http (GetAutocomplete tinkers 5)].
Proof.
  cbv zeta.
  refine (proj2 (proj2 (proj2 (proj2 (proj2
            (page_suggestion_click_searches_and_rearms
               (run [Change (lit "t"); Elapse 300;
                     Respond 0 (SuggestionsReply
                                  (Replied 200
                                     (Some (AutocompleteResponse.mk (lit "t")
                                              [tinkers]))))] mounted)
               0 tinkers 300 _ _ _ _ _ _))))));
    [vm_compute; reflexivity | vm_compute; reflexivity
    | vm_compute; reflexivity | vm_compute; reflexivity
    | vm_compute; reflexivity | unfold debounceDelay; lia].
Defined.

(** ** The summary dialog *)

(** X20.  In the second component nothing keeps a second summary request
    from being sent while one is loading (the dialog can be closed and
    another card clicked), and summary replies are applied as they arrive,
    whichever mod is selected.  When the summaries of two mods have been
    asked for and the reply for the first arrives last, its text is the one
    displayed in the dialog of the mod selected last; and the first reply
    to arrive lowers the loading flag although the other request is still
    pending. *)
Theorem page_late_summary_shown_for_other_mod
    (w : World) (a b : nat) (statusA statusB : Z)
    (dataA dataB : SummaryResponse.t) :
  a < b ->
  awaiting a (inflight w) = Some AwaitSummary ->
  awaiting b (inflight w) = Some AwaitSummary ->
  ModSearch.ok statusA = true ->
  ModSearch.ok statusB = true ->
  let w1 := dispatch (Respond b (SummaryReply
                                   (Replied statusB (Some dataB)))) w in
  let w2 := dispatch (Respond a (SummaryReply
                                   (Replied statusA (Some dataA)))) w1 in
  ModSearch.modSummary (summary (ui w1)) = SummaryResponse.summary dataB
  /\ ModSearch.summaryLoading (summary (ui w1)) = false
  /\ awaiting a (inflight w1) = Some AwaitSummary
  /\ ModSearch.modSummary (summary (ui w2)) = SummaryResponse.summary dataA
  /\ ModSearch.selectedMod (summary (ui w2))
     = ModSearch.selectedMod (summary (ui w)).
Proof.
  intros Hab Ha Hb HokA HokB. cbv zeta.
  change (dispatch (Respond b ?r) w) with (respond b r w).
  change (dispatch (Respond a ?r) ?x) with (respond a r x).
  rewrite (page_respond_summary _ _ _ Hb).
  set (w1 := handleModClick_resume _ (settle b w)).
  assert (Ha1 : awaiting a (inflight w1) = Some AwaitSummary).
  { subst w1. unfold handleModClick_resume, settle, setSummary, onUi.
    cbn [inflight]. rewrite page_awaiting_settle_other by lia. exact Ha. }
  rewrite (page_respond_summary _ _ _ Ha1).
  subst w1. unfold handleModClick_resume, ModSearch.handleModClick_resume.
  cbn [ui summary setSummary onUi settle ModSearch.modSummary
       ModSearch.summaryLoading ModSearch.selectedMod].
  rewrite HokA, HokB. conjuncts; try reflexivity. exact Ha1.
Qed.

Lemma page_late_summary_shown_for_other_mod_witness :
  let w := run [ClickMod 0; CloseDialog; ClickMod 1] twoResults in
  let w2 := run [Respond 2 (SummaryReply
                              (Replied 200 (Some (sampleSummary "2"))));
                 Respond 1 (SummaryReply
                              (Replied 200 (Some (sampleSummary "1"))))] w in
  ModSearch.modSummary (summary (ui w2))
  = SummaryResponse.summary (sampleSummary "1")
  /\ ModSearch.selectedMod (summary (ui w2)) = Some (sampleMod "2").
Proof.
  cbv zeta.
  pose proof (page_late_summary_shown_for_other_mod
                (run [ClickMod 0; CloseDialog; ClickMod 1] twoResults)
                1 2 200 200
                (sampleSummary "1") (sampleSummary "2")) as H.
  cbv zeta in H.
  refine ((fun H' => conj (proj1 (proj2 (proj2 (proj2 H'))))
                          (eq_trans (proj2 (proj2 (proj2 (proj2 H')))) _))
            (H _ _ _ _ _));
    [vm_compute; reflexivity | lia | vm_compute; reflexivity
    | vm_compute; reflexivity | vm_compute; reflexivity
    | vm_compute; reflexivity].
Defined.



(** ** Result cards *)

(** X21.  A result card shows at most three category badges, the first
    three in order, and the badge that counts the others appears exactly
    when there are more than three: shown and counted categories together
    are all the categories of the mod. *)
Theorem category_badges_account_for_all (categories : list jsstring) :
  length (shownCategories categories) <= 3
  /\ shownCategories categories ++ skipn 3 categories = categories
  /\ length (shownCategories categories)
     + match moreBadge categories with Some n => n | None => 0 end
     = length categories
  /\ (moreBadge categories = None <-> length categories <= 3)
  /\ (length categories <= 3 -> shownCategories categories = categories).
Proof.
  unfold shownCategories, moreBadge. conjuncts.
  - rewrite length_firstn. lia.
  - apply firstn_skipn.
  - rewrite length_firstn.
    destruct (Nat.ltb_spec 3 (length categories)); lia.
  - destruct (Nat.ltb_spec 3 (length categories)); split;
      try discriminate; try reflexivity; lia.
  - intros Hfew. now apply firstn_all2.
Qed.

End PageFacts.
